(** * Kakeibo: the allocation engine of [client/src/KakeiboPage.jsx]

    A shallow embedding of the derived values, validations and handlers of
    the [KakeiboPage] component, and the properties of them that the
    specification states.

    Numbers.  A JavaScript number is a binary64 value, and the file has the
    derived values twice.  The first time the finite numbers are exact
    rationals ([Q]), next to [NaN] and the two infinities: [Number] follows
    the StringToNumber grammar of ECMAScript and sends a literal beyond the
    binary64 range to an infinity and one below half the least denormal to
    zero, so that the sign tests of the component decide as they do in the
    browser, while sums, products and quotients are exact.  These
    definitions carry what rests on signs, on the shape of the error lists
    and on the state and its handlers.  The second time, in [B64], the
    numbers are binary64 values with the rounding operations of
    [SpecFloat]; what depends on a rounded value or on a threshold is
    stated there.  A text is the sequence of the bytes of its UTF-8
    form.

    The Express backend follows the page: the auth middleware, the user
    model, controller and routes, and the Google controller over an
    abstract [googleapis] library. *)

From Stdlib Require Import List String Ascii Bool ZArith NArith QArith Qabs Qminmax Lia Lqa.
From Stdlib Require Import DecimalString DecimalN Permutation SpecFloat.
Import ListNotations.

Open Scope string_scope.
Open Scope Q_scope.

(** ** JavaScript numbers and [Number(text)] *)

Module JS.

Inductive Num : Type :=
| Finite (q : Q)
| PosInfinity
| NegInfinity
| NaN.

(** StrWhiteSpaceChar, the characters below 128. *)
Definition isStrWhiteSpace (c : ascii) : bool :=
  let n := N_of_ascii c in
  ((9 <=? n) && (n <=? 13))%N || (n =? 32)%N.

(** A text is the sequence of the bytes of its UTF-8 form.  The other
    StrWhiteSpaceChar: U+00A0 in two bytes; U+1680, U+2000 to U+200A,
    U+2028, U+2029, U+202F, U+205F, U+3000 and U+FEFF in three. *)
Definition isStrWhiteSpace2 (c1 c2 : ascii) : bool :=
  ((N_of_ascii c1 =? 194) && (N_of_ascii c2 =? 160))%N.

Definition isStrWhiteSpace3 (c1 c2 c3 : ascii) : bool :=
  let a := N_of_ascii c1 in
  let b := N_of_ascii c2 in
  let c := N_of_ascii c3 in
  ((a =? 225) && (b =? 154) && (c =? 128)
   || (a =? 226) && (b =? 128)
      && ((128 <=? c) && (c <=? 138) || (c =? 168) || (c =? 169) || (c =? 175))
   || (a =? 226) && (b =? 129) && (c =? 159)
   || (a =? 227) && (b =? 128) && (c =? 128)
   || (a =? 239) && (b =? 187) && (c =? 191))%N.

Fixpoint trimStart (s : string) : string :=
  match s with
  | String c1 r1 =>
      if isStrWhiteSpace c1 then trimStart r1
      else
        match r1 with
        | String c2 r2 =>
            if isStrWhiteSpace2 c1 c2 then trimStart r2
            else
              match r2 with
              | String c3 r3 =>
                  if isStrWhiteSpace3 c1 c2 c3 then trimStart r3 else s
              | EmptyString => s
              end
        | EmptyString => s
        end
  | EmptyString => EmptyString
  end.

Fixpoint allWhiteSpace (s : string) : bool :=
  match s with
  | String c1 r1 =>
      if isStrWhiteSpace c1 then allWhiteSpace r1
      else
        match r1 with
        | String c2 r2 =>
            if isStrWhiteSpace2 c1 c2 then allWhiteSpace r2
            else
              match r2 with
              | String c3 r3 =>
                  isStrWhiteSpace3 c1 c2 c3 && allWhiteSpace r3
              | EmptyString => false
              end
        | EmptyString => false
        end
  | EmptyString => true
  end.

Fixpoint trimEnd (s : string) : string :=
  match s with
  | String c r => if allWhiteSpace s then EmptyString else String c (trimEnd r)
  | EmptyString => EmptyString
  end.

Definition trim (s : string) : string := trimEnd (trimStart s).

(** The value of a digit in the given radix (2, 8, 10 or 16). *)
Definition digitValue (radix : Z) (c : ascii) : option Z :=
  let n := Z.of_N (N_of_ascii c) in
  let v :=
    if ((48 <=? n) && (n <=? 57))%Z then Some (n - 48)%Z
    else if ((97 <=? n) && (n <=? 102))%Z then Some (n - 87)%Z
    else if ((65 <=? n) && (n <=? 70))%Z then Some (n - 55)%Z
    else None in
  match v with
  | Some d => if (d <? radix)%Z then Some d else None
  | None => None
  end.

(** The longest prefix of digits: its value, its length, and the rest. *)
Fixpoint digits (radix : Z) (s : string) (acc : Z) (n : nat) : Z * nat * string :=
  match s with
  | String c r =>
      match digitValue radix c with
      | Some d => digits radix r (radix * acc + d)%Z (S n)
      | None => (acc, n, s)
      end
  | EmptyString => (acc, n, s)
  end.

(** NonDecimalIntegerLiteral: [0x], [0o], [0b] and at least one digit. *)
Definition nonDecimalInteger (s : string) : option Z :=
  match s with
  | String "0" (String p r) =>
      let radix :=
        if (p =? "x")%char || (p =? "X")%char then Some 16%Z
        else if (p =? "o")%char || (p =? "O")%char then Some 8%Z
        else if (p =? "b")%char || (p =? "B")%char then Some 2%Z
        else None in
      match radix with
      | Some b =>
          match digits b r 0 0 with
          | (v, S _, EmptyString) => Some v
          | _ => None
          end
      | None => None
      end
  | _ => None
  end.

(** ExponentPart, optional, up to the end of the text. *)
Definition exponentPart (s : string) : option Z :=
  match s with
  | EmptyString => Some 0%Z
  | String c r =>
      if (c =? "e")%char || (c =? "E")%char then
        let '(neg, r') :=
          match r with
          | String "+" t => (false, t)
          | String "-" t => (true, t)
          | _ => (false, r)
          end in
        match digits 10 r' 0 0 with
        | (v, S _, EmptyString) => Some (if neg then (- v)%Z else v)
        | _ => None
        end
      else None
  end.

(** [m * 10^e] as a rational. *)
Definition scale10 (m e : Z) : Q :=
  if (0 <=? e)%Z then inject_Z (m * 10 ^ e)
  else m # Z.to_pos (10 ^ (- e)).

(** StrUnsignedDecimalLiteral without [Infinity]:
    digits, an optional fraction, an optional exponent. *)
Definition unsignedDecimal (s : string) : option Q :=
  let '(i, ni, r1) := digits 10 s 0 0 in
  let '(m, nf, r2) :=
    match r1 with
    | String "." t => digits 10 t i 0
    | _ => (i, 0%nat, r1)
    end in
  let wellFormed :=
    match ni, nf with
    | O, O => false
    | _, _ => true
    end in
  if wellFormed then
    match exponentPart r2 with
    | Some e => Some (scale10 m (e - Z.of_nat nf))
    | None => None
    end
  else None.

(** Beyond [2^1024 - 2^970] a literal rounds to an infinity, and at or below
    [2^-1075] to zero. *)
Definition overflowBound : Q := inject_Z (2 ^ 1024 - 2 ^ 970).
Definition underflowBound : Q := 1 # Z.to_pos (2 ^ 1075).

Definition roundRange (q : Q) : Num :=
  if Qle_bool overflowBound (Qabs q) then
    (if Qle_bool 0 q then PosInfinity else NegInfinity)
  else if Qle_bool (Qabs q) underflowBound then Finite 0
  else Finite q.

Definition negate (n : Num) : Num :=
  match n with
  | Finite q => Finite (- q)
  | PosInfinity => NegInfinity
  | NegInfinity => PosInfinity
  | NaN => NaN
  end.

(** StrDecimalLiteral: an optional sign, then [Infinity] or a decimal. *)
Definition strDecimalLiteral (s : string) : Num :=
  let '(neg, r) :=
    match s with
    | String "+" t => (false, t)
    | String "-" t => (true, t)
    | _ => (false, s)
    end in
  let n :=
    if (r =? "Infinity")%string then PosInfinity
    else match unsignedDecimal r with
         | Some q => roundRange q
         | None => NaN
         end in
  if neg then negate n else n.

(** [Number(v)] for a string [v]. *)
Definition Number (v : string) : Num :=
  let t := trim v in
  if (t =? "")%string then Finite 0
  else match nonDecimalInteger t with
       | Some n => roundRange (inject_Z n)
       | None => strDecimalLiteral t
       end.

End JS.

(** ** Data model *)

Record Source : Type := mkSource {
  id : string;
  name : string;
  received : bool;
  amount : string
}.

(** [mode] holds ["amount"] or ["percent"]; [setMode] is called with no
    other value. *)
Inductive Mode : Type :=
| amount_mode
| percent_mode.

Definition Mode_eqb (a b : Mode) : bool :=
  match a, b with
  | amount_mode, amount_mode => true
  | percent_mode, percent_mode => true
  | _, _ => false
  end.

(** The object shape [{ ef, sf, spending, fun }]: of texts in [funds], of
    numbers in [fundsAsAmount] and [doneSummary]. *)
Record Funds (A : Type) : Type := mkFunds {
  ef : A;
  sf : A;
  spending : A;
  fun_ : A
}.
Arguments mkFunds {A} _ _ _ _.
Arguments ef {A} _.
Arguments sf {A} _.
Arguments spending {A} _.
Arguments fun_ {A} _.

Inductive ToastType : Type :=
| success
| error.

Record Toast : Type := mkToast {
  type : ToastType;
  message : string
}.

(** The component state: one field per [useState]. *)
Record State : Type := mkState {
  sources : list Source;
  mode : Mode;
  funds : Funds string;
  toast : option Toast;
  doneSummary : option (Funds Q)
}.

Definition initialState : State :=
  {| sources := [ mkSource "bpi" "BPI" false "";
                  mkSource "gcash" "GCash" false "" ];
     mode := amount_mode;
     funds := mkFunds "" "" "" "";
     toast := None;
     doneSummary := None |}.

(** ** Derived values *)

(** [a > b] on finite numbers. *)
Definition gtb (a b : Q) : bool := negb (Qle_bool a b).

(** [Number.isFinite(n) ? n : 0]: a finite [n] is kept, [NaN] and the
    infinities give 0.  The sign is not touched. *)
Definition clampNumber (v : string) : Q :=
  let n := JS.Number v in
  match n with
  | JS.Finite q => q
  | JS.PosInfinity | JS.NegInfinity | JS.NaN => 0
  end.

Definition totalIncome (sources : list Source) : Q :=
  fold_left
    (fun sum s =>
       if negb (received s) then sum
       else
         let amt := clampNumber (amount s) in
         sum + (if gtb amt 0 then amt else 0))
    sources 0.

Definition step1Valid (totalIncome : Q) : bool := gtb totalIncome 0.

Definition fundsAsAmount (funds : Funds string) (mode : Mode) (totalIncome : Q)
  : Funds Q :=
  if Mode_eqb mode amount_mode then
    {| ef := clampNumber (ef funds);
       sf := clampNumber (sf funds);
       spending := clampNumber (spending funds);
       fun_ := clampNumber (fun_ funds) |}
  else
    let toAmt := fun p => (totalIncome * clampNumber p) / 100 in
    {| ef := toAmt (ef funds);
       sf := toAmt (sf funds);
       spending := toAmt (spending funds);
       fun_ := toAmt (fun_ funds) |}.

Definition allocatedTotal (fundsAsAmount : Funds Q) : Q :=
  ef fundsAsAmount + sf fundsAsAmount + spending fundsAsAmount
  + fun_ fundsAsAmount.

Definition remaining (totalIncome allocatedTotal : Q) : Q :=
  totalIncome - allocatedTotal.

(** ** Validation *)

(** [errs.push(e)] *)
Definition push (errs : list string) (e : string) : list string :=
  (errs ++ [e])%list.

Definition MissingReceivedIncome : string :=
  "At least 1 source must be marked received with an amount > 0.".

Definition NonPositiveSourceAmount (s : Source) : string :=
  name s ++ ": amount must be > 0 if received is ON.".

Definition Stage2Locked : string :=
  "Step 2 is locked until Step 1 has a valid total income.".

Definition AllocationExceedsIncome : string :=
  "Allocated total cannot exceed total income.".

Definition PercentTotalExceeds100 : string :=
  "Total percent cannot exceed 100%.".

Definition step1Errors (sources : list Source) : list string :=
  let errs := [] in
  let errs :=
    if negb (existsb (fun s => received s && gtb (clampNumber (amount s)) 0)
               sources)
    then push errs MissingReceivedIncome
    else errs in
  fold_left
    (fun errs s =>
       if received s && Qle_bool (clampNumber (amount s)) 0
       then push errs (NonPositiveSourceAmount s)
       else errs)
    sources errs.

Definition pctTotal (funds : Funds string) : Q :=
  clampNumber (ef funds) + clampNumber (sf funds)
  + clampNumber (spending funds) + clampNumber (fun_ funds).

Definition step2Errors (step1Valid : bool) (mode : Mode) (funds : Funds string)
  (allocatedTotal totalIncome : Q) : list string :=
  let errs := [] in
  if negb step1Valid then push errs Stage2Locked
  else
    let errs :=
      if Mode_eqb mode amount_mode && gtb allocatedTotal (totalIncome + 0.0001)
      then push errs AllocationExceedsIncome
      else errs in
    let errs :=
      if Mode_eqb mode percent_mode then
        if gtb (pctTotal funds) 100.0001
        then push errs PercentTotalExceeds100
        else errs
      else errs in
    errs.

Definition canDone (step2Errors : list string) : bool :=
  (List.length step2Errors =? 0)%nat.

(** The derived values of one render, each from the state and the derived
    values it depends on. *)
Module Render.

Definition totalIncome (st : State) : Q := totalIncome (sources st).

Definition step1Valid (st : State) : bool := step1Valid (totalIncome st).

Definition fundsAsAmount (st : State) : Funds Q :=
  fundsAsAmount (funds st) (mode st) (totalIncome st).

Definition allocatedTotal (st : State) : Q := allocatedTotal (fundsAsAmount st).

Definition remaining (st : State) : Q :=
  remaining (totalIncome st) (allocatedTotal st).

Definition step1Errors (st : State) : list string := step1Errors (sources st).

Definition step2Errors (st : State) : list string :=
  step2Errors (step1Valid st) (mode st) (funds st) (allocatedTotal st)
    (totalIncome st).

Definition canDone (st : State) : bool := canDone (step2Errors st).

End Render.

(** ** Handlers

    A handler maps the state of the render it was created in to the next
    state.  What the browser supplies (the answer to [prompt] and [confirm],
    [Date.now()]) is an argument.  [showToast] also arms a timer that clears
    the toast after 2500 ms; the timer is not part of the model. *)

Definition setToast (t : option Toast) (st : State) : State :=
  {| sources := sources st; mode := mode st; funds := funds st;
     toast := t; doneSummary := doneSummary st |}.

Definition setSources (f : list Source -> list Source) (st : State) : State :=
  {| sources := f (sources st); mode := mode st; funds := funds st;
     toast := toast st; doneSummary := doneSummary st |}.

Definition setFunds (f : Funds string -> Funds string) (st : State) : State :=
  {| sources := sources st; mode := mode st; funds := f (funds st);
     toast := toast st; doneSummary := doneSummary st |}.

Definition setMode (m : Mode) (st : State) : State :=
  {| sources := sources st; mode := m; funds := funds st;
     toast := toast st; doneSummary := doneSummary st |}.

Definition setDoneSummary (d : option (Funds Q)) (st : State) : State :=
  {| sources := sources st; mode := mode st; funds := funds st;
     toast := toast st; doneSummary := d |}.

Definition showToast (type : ToastType) (message : string) (st : State) : State :=
  setToast (Some {| type := type; message := message |}) st.

(** The [patch] objects of the component carry [received], [amount] or
    both. *)
Module Patch.
Record t : Type := mk {
  received : option bool;
  amount : option string
}.
End Patch.

(** [{ ...s, ...patch }] *)
Definition applyPatch (s : Source) (patch : Patch.t) : Source :=
  {| id := id s;
     name := name s;
     received := match Patch.received patch with
                 | Some r => r
                 | None => received s
                 end;
     amount := match Patch.amount patch with
               | Some a => a
               | None => amount s
               end |}.

Definition updateSource (id' : string) (patch : Patch.t) (st : State) : State :=
  setSources
    (fun prev => map (fun s => if (id s =? id')%string then applyPatch s patch else s) prev)
    st.

(** [toLowerCase] on a name of ASCII characters: the letters A to Z.  The
    case mapping of other characters is not modelled; their bytes are
    kept. *)
Fixpoint toLowerCase (s : string) : string :=
  match s with
  | EmptyString => EmptyString
  | String c r =>
      let n := N_of_ascii c in
      String (if ((65 <=? n) && (n <=? 90))%N then ascii_of_N (n + 32) else c)
        (toLowerCase r)
  end.

(** [replace(/\s+/g, "-")] on a name of ASCII characters: each run of
    white space becomes one dash. *)
Fixpoint replaceSpaceRuns (inRun : bool) (s : string) : string :=
  match s with
  | EmptyString => EmptyString
  | String c r =>
      if JS.isStrWhiteSpace c then
        if inRun then replaceSpaceRuns true r
        else String "-" (replaceSpaceRuns true r)
      else String c (replaceSpaceRuns false r)
  end.

Definition newSourceId (name : string) (now : N) : string :=
  replaceSpaceRuns false (toLowerCase name) ++ "-"
  ++ NilZero.string_of_uint (N.to_uint now).

Definition addSource (promptResult : option string) (now : N) (st : State) : State :=
  match promptResult with
  | None => st
  | Some name =>
      if (name =? "")%string then st
      else
        let id := newSourceId name now in
        let st := setSources (fun prev => (prev ++ [mkSource id name false ""])%list) st in
        showToast success ("Added source: " ++ name) st
  end.

Definition removeSource (id' : string) (confirmResult : bool) (st : State) : State :=
  match find (fun s => (id s =? id')%string) (sources st) with
  | None => st
  | Some src =>
      if negb confirmResult then st
      else
        let st := setSources (filter (fun s => negb (id s =? id')%string)) st in
        showToast success ("Removed source: " ++ name src) st
  end.

Definition saveStep1Local (st : State) : State :=
  if negb (List.length (Render.step1Errors st) =? 0)%nat then
    showToast error "Fix Step 1 errors first." st
  else
    let st := setDoneSummary None st in
    showToast success "Step 1 saved (local only) ✅" st.

Definition doneStep2Local (st : State) : State :=
  if negb (Render.canDone st) then
    showToast error "Fix Step 2 errors first." st
  else
    let st' := setDoneSummary (Some (Render.fundsAsAmount st)) st in
    showToast success "DONE! (local only) 🎉" st'.

Definition resetAll (st : State) : State :=
  let st := setSources (map (fun s => mkSource (id s) (name s) false "")) st in
  let st := setFunds (fun _ => mkFunds "" "" "" "") st in
  let st := setMode amount_mode st in
  let st := setDoneSummary None st in
  showToast success "Reset complete" st.

(** The [onChange] handlers of the inputs. *)

(** The checkbox of the card of [s]. *)
Definition onReceivedChange (s : Source) (checked : bool) (st : State) : State :=
  updateSource (id s)
    {| Patch.received := Some checked;
       Patch.amount := Some (if checked then amount s else "") |}
    st.

(** The amount input of the card of [s]. *)
Definition onAmountChange (s : Source) (value : string) (st : State) : State :=
  updateSource (id s)
    {| Patch.received := None; Patch.amount := Some value |} st.

Inductive FundKey : Type :=
| key_ef
| key_sf
| key_spending
| key_fun.

(** The input of a [FundRow]: [setFunds((p) => ({ ...p, key: v }))]. *)
Definition onFundChange (k : FundKey) (v : string) (st : State) : State :=
  setFunds
    (fun p =>
       match k with
       | key_ef => mkFunds v (sf p) (spending p) (fun_ p)
       | key_sf => mkFunds (ef p) v (spending p) (fun_ p)
       | key_spending => mkFunds (ef p) (sf p) v (fun_ p)
       | key_fun => mkFunds (ef p) (sf p) (spending p) v
       end)
    st.

(** [funds[k]] *)
Definition getFund {A : Type} (k : FundKey) (f : Funds A) : A :=
  match k with
  | key_ef => ef f
  | key_sf => sf f
  | key_spending => spending f
  | key_fun => fun_ f
  end.

(** ** What the page shows *)

(** The inline error of a card:
    [s.received && clampNumber(s.amount) <= 0]. *)
Definition cardError (s : Source) : bool :=
  received s && Qle_bool (clampNumber (amount s)) 0.

(** [sources.filter((s) => s.received).length] *)
Definition receivedCount (sources : list Source) : nat :=
  List.length (filter (fun s => received s) sources).

(** ** Events

    What the user, and the toast timer, can do to the page.  An event of a
    card carries the source the card was rendered from. *)

Inductive Event : Type :=
| AddSource (promptResult : option string) (now : N)
| RemoveSource (s : Source) (confirmResult : bool)
| ToggleReceived (s : Source) (checked : bool)
| EditAmount (s : Source) (value : string)
| EditFund (k : FundKey) (value : string)
| SetMode (m : Mode)
| SaveStep1
| Done
| Reset
| ToastExpired.

Definition handle (e : Event) (st : State) : State :=
  match e with
  | AddSource promptResult now => addSource promptResult now st
  | RemoveSource s confirmResult => removeSource (id s) confirmResult st
  | ToggleReceived s checked => onReceivedChange s checked st
  | EditAmount s value => onAmountChange s value st
  | EditFund k value => onFundChange k value st
  | SetMode m => setMode m st
  | SaveStep1 => saveStep1Local st
  | Done => doneStep2Local st
  | Reset => resetAll st
  | ToastExpired => setToast None st
  end.

(** When an event can happen: a card event comes from a card on the page,
    the amount input of a card is [disabled] unless the source is received,
    and [Date.now()] has moved on since a source of the same name was
    added, so that the new id is not in use. *)
Definition enabled (st : State) (e : Event) : Prop :=
  match e with
  | AddSource (Some name) now =>
      name <> "" -> ~ In (newSourceId name now) (map id (sources st))
  | RemoveSource s _ => In s (sources st)
  | ToggleReceived s _ => In s (sources st)
  | EditAmount s _ => In s (sources st) /\ received s = true
  | _ => True
  end.

Inductive reachable : State -> Prop :=
| reachable_initial : reachable initialState
| reachable_step (st : State) (e : Event) :
    reachable st -> enabled st e -> reachable (handle e st).

(** The events that only edit the inputs. *)
Definition isEdit (e : Event) : bool :=
  match e with
  | SaveStep1 | Done | Reset => false
  | _ => true
  end.

(** * The numbers of the page in binary64

    The derived values once more, over IEEE 754 binary64 as the code
    computes them: [Number] rounds the text to the nearest binary64 value,
    ties to even, and every [+], [-], [*] and [/] rounds its result.  The
    operations are those of [SpecFloat] at precision 53 and maximal
    exponent 1024.  What depends on a rounded value or on a threshold is
    stated over these definitions; the exact ones above serve where only
    signs, structure and the state matter. *)

Module B64.

Definition float : Type := spec_float.

Definition prec : Z := 53.
Definition emax : Z := 1024.

Definition add : float -> float -> float := SFadd prec emax.
Definition sub : float -> float -> float := SFsub prec emax.
Definition mul : float -> float -> float := SFmul prec emax.
Definition div : float -> float -> float := SFdiv prec emax.

(** [a > b], [a <= b] and [a === b]; each is false when a side is
    [NaN]. *)
Definition gt (a b : float) : bool := SFltb b a.
Definition le (a b : float) : bool := SFleb a b.
Definition strictEquals (a b : float) : bool := SFeqb a b.

Definition zero : float := S754_zero false.

(** The binary64 value nearest to a rational, ties to even.  The quotient
    is taken to 1100 binary places, with one more bit that is set when the
    division is not exact; that is below half of the least denormal, so
    the rounding of the integer is the rounding of the rational. *)
Definition ofQ (q : Q) : float :=
  let n := Qnum q in
  let d := Zpos (Qden q) in
  let '(quo, rem) := Z.div_eucl (Z.abs n * 2 ^ 1100) d in
  let m := (2 * quo + (if rem =? 0 then 0 else 1))%Z in
  let r := binary_normalize prec emax m (-1101) false in
  if (n <? 0)%Z then SFopp r else r.

(** The literals [100], [0.0001] and [100.0001] of the source. *)
Definition hundred : float := Eval vm_compute in ofQ 100.
Definition tolerance : float := Eval vm_compute in ofQ 0.0001.
Definition hundredAndTolerance : float := Eval vm_compute in ofQ 100.0001.

(** StrDecimalLiteral, rounded. *)
Definition strDecimalLiteral (s : string) : float :=
  let '(neg, r) :=
    match s with
    | String "+" t => (false, t)
    | String "-" t => (true, t)
    | _ => (false, s)
    end in
  let n :=
    if (r =? "Infinity")%string then S754_infinity false
    else match JS.unsignedDecimal r with
         | Some q => ofQ q
         | None => S754_nan
         end in
  if neg then SFopp n else n.

(** [Number(v)] for a string [v]. *)
Definition Number (v : string) : float :=
  let t := JS.trim v in
  if (t =? "")%string then zero
  else match JS.nonDecimalInteger t with
       | Some n => ofQ (inject_Z n)
       | None => strDecimalLiteral t
       end.

(** [Number.isFinite] *)
Definition isFinite (n : float) : bool :=
  match n with
  | S754_zero _ | S754_finite _ _ _ => true
  | S754_infinity _ | S754_nan => false
  end.

Definition clampNumber (v : string) : float :=
  let n := Number v in
  if isFinite n then n else zero.

Definition totalIncome (sources : list Source) : float :=
  fold_left
    (fun sum s =>
       if negb (received s) then sum
       else
         let amt := clampNumber (amount s) in
         add sum (if gt amt zero then amt else zero))
    sources zero.

Definition step1Valid (totalIncome : float) : bool := gt totalIncome zero.

Definition fundsAsAmount (funds : Funds string) (mode : Mode) (totalIncome : float)
  : Funds float :=
  if Mode_eqb mode amount_mode then
    {| ef := clampNumber (ef funds);
       sf := clampNumber (sf funds);
       spending := clampNumber (spending funds);
       fun_ := clampNumber (fun_ funds) |}
  else
    let toAmt := fun p => div (mul totalIncome (clampNumber p)) hundred in
    {| ef := toAmt (ef funds);
       sf := toAmt (sf funds);
       spending := toAmt (spending funds);
       fun_ := toAmt (fun_ funds) |}.

Definition allocatedTotal (fundsAsAmount : Funds float) : float :=
  add (add (add (ef fundsAsAmount) (sf fundsAsAmount)) (spending fundsAsAmount))
    (fun_ fundsAsAmount).

Definition remaining (totalIncome allocatedTotal : float) : float :=
  sub totalIncome allocatedTotal.

Definition pctTotal (funds : Funds string) : float :=
  add (add (add (clampNumber (ef funds)) (clampNumber (sf funds)))
         (clampNumber (spending funds)))
    (clampNumber (fun_ funds)).

Definition step2Errors (step1Valid : bool) (mode : Mode) (funds : Funds string)
  (allocatedTotal totalIncome : float) : list string :=
  let errs := [] in
  if negb step1Valid then push errs Stage2Locked
  else
    let errs :=
      if Mode_eqb mode amount_mode && gt allocatedTotal (add totalIncome tolerance)
      then push errs AllocationExceedsIncome
      else errs in
    let errs :=
      if Mode_eqb mode percent_mode then
        if gt (pctTotal funds) hundredAndTolerance
        then push errs PercentTotalExceeds100
        else errs
      else errs in
    errs.

Module Render.

Definition totalIncome (st : State) : float := totalIncome (sources st).

Definition step1Valid (st : State) : bool := step1Valid (totalIncome st).

Definition fundsAsAmount (st : State) : Funds float :=
  fundsAsAmount (funds st) (mode st) (totalIncome st).

Definition allocatedTotal (st : State) : float := allocatedTotal (fundsAsAmount st).

Definition remaining (st : State) : float :=
  remaining (totalIncome st) (allocatedTotal st).

Definition step2Errors (st : State) : list string :=
  step2Errors (step1Valid st) (mode st) (funds st) (allocatedTotal st)
    (totalIncome st).

Definition canDone (st : State) : bool := canDone (step2Errors st).

End Render.

End B64.

(** * The Express backend

    The user routes: [middleware/auth.js], [models/userModel.js],
    [controllers/userController.js] and the router that chains them. *)

Module Server.

#[warnings="-register-all"]
Inductive Json : Type :=
| JNull
| JBool (b : bool)
| JNumber (n : Q)
| JString (s : string)
| JArray (items : list Json)
| JObject (fields : list (string * Json)).

(** What a handler sends: [res.status(c).json(b)], [res.status(c).send(t)]
    or [res.redirect(u)]; the status is 200 unless it is set. *)
Inductive Reply : Type :=
| json (status : N) (body : Json)
| send (status : N) (text : string)
| redirect (url : string).

(** [o[k]] on an object given by its entries; [None] is [undefined]. *)
Fixpoint lookup {A : Type} (k : string) (o : list (string * A)) : option A :=
  match o with
  | [] => None
  | (k', v) :: rest => if (k' =? k)%string then Some v else lookup k rest
  end.

(** *** userModel *)

Module User.
Record t : Type := mk {
  id : Q;
  name : string;
  email : string
}.
End User.

Definition USERS : list User.t :=
  [ User.mk 1 "Angela" "angela@example.com";
    User.mk 2 "Miggy" "miggy@example.com" ].

Definition getAllUsers : list User.t := USERS.

(** [USERS.find((u) => u.id === id) || null]; the ids of the list are the
    binary64 values of their literals. *)
Definition getUserById (id : B64.float) : option User.t :=
  find (fun u => B64.strictEquals (B64.ofQ (User.id u)) id) USERS.

(** *** Requests *)

(** [req.user], as the middleware sets it. *)
Module Principal.
Record t : Type := mk {
  id : Q;
  role : string
}.
End Principal.

Record Request : Type := mkRequest {
  headers : list (string * string);
  params : list (string * string);
  user : option Principal.t
}.

(** *** The auth middleware *)

(** [h || ""] for a header that may be missing. *)
Definition orEmpty (h : option string) : string :=
  match h with
  | Some s => s
  | None => ""
  end.

Definition startsWith (s p : string) : bool := String.prefix p s.

(** [s.slice(start)] for [start] within the text. *)
Definition slice (s : string) (start : nat) : string :=
  substring start (String.length s - start) s.

(** A middleware answers, or calls [next()] with the request it has
    changed. *)
Inductive Step : Type :=
| respond (r : Reply)
| next (req : Request).

Definition errorBody (e : string) : Json := JObject [("error", JString e)].

Definition auth (req : Request) : Step :=
  let authHeader := orEmpty (lookup "authorization" (headers req)) in
  let token :=
    if startsWith authHeader "Bearer "
    then Some (slice authHeader (String.length "Bearer "))
    else None in
  match token with
  | None => respond (json 401 (errorBody "Missing token"))
  | Some t =>
      if (t =? "")%string then respond (json 401 (errorBody "Missing token"))
      else if negb (t =? "secret-token")%string
      then respond (json 403 (errorBody "Invalid token"))
      else next {| headers := headers req;
                   params := params req;
                   user := Some (Principal.mk 1 "admin") |}
  end.

(** *** userController *)

(** A controller answers, or throws: [req.user.role] on a request without
    [user] is a [TypeError]. *)
Inductive Outcome : Type :=
| replied (r : Reply)
| threw.

Definition userJson (u : User.t) : Json :=
  JObject [ ("id", JNumber (User.id u));
            ("name", JString (User.name u));
            ("email", JString (User.email u)) ].

Definition listUsers (req : Request) : Outcome :=
  let users := getAllUsers in
  match user req with
  | None => threw
  | Some u =>
      replied
        (json 200
           (JObject
              [ ("message",
                 JString ("Hello " ++ Principal.role u ++ ", here are the users"));
                ("data", JArray (map userJson users)) ]))
  end.

Definition getUser (req : Request) : Outcome :=
  let id :=
    match lookup "id" (params req) with
    | Some v => B64.Number v
    | None => S754_nan
    end in
  match getUserById id with
  | None => replied (json 404 (errorBody "User not found"))
  | Some user => replied (json 200 (JObject [("data", userJson user)]))
  end.

(** *** userRoutes: [router.get(path, auth, controller)] *)

Definition chain (controller : Request -> Outcome) (req : Request) : Outcome :=
  match auth req with
  | respond r => replied r
  | next req' => controller req'
  end.

(** [GET /users] *)
Definition usersRoute : Request -> Outcome := chain listUsers.

(** [GET /users/:id] *)
Definition userRoute : Request -> Outcome := chain getUser.

End Server.

(** * The Google controller

    [controllers/googleController.js].  The OAuth client and the Sheets API
    belong to the [googleapis] package: they are the variables of the
    section, each call either returning or throwing.  Of the file system
    only [tokens.json] matters.  [console.error] is left out. *)

Module Google.
Import Server.

Inductive Result (A : Type) : Type :=
| ok (a : A)
| thrown.
Arguments ok {A} _.
Arguments thrown {A}.

(** [process.env] *)
Record Env : Type := mkEnv {
  GOOGLE_CLIENT_ID : option string;
  GOOGLE_CLIENT_SECRET : option string;
  GOOGLE_REDIRECT_URI : option string
}.

(** [tokens.json]: its content when it exists, and whether it can be
    written. *)
Record Disk : Type := mkDisk {
  tokensFile : option string;
  writable : bool
}.

(** [req.query], and [req.body] when a body was parsed. *)
Record Request : Type := mkRequest {
  query : list (string * Json);
  body : option (list (string * Json))
}.

(** Whether a value counts as true in [!v] and [v || d]. *)
Definition truthy (v : Json) : bool :=
  match v with
  | JNull => false
  | JBool b => b
  | JNumber n => negb (Qeq_bool n 0)
  | JString s => negb (s =? "")%string
  | JArray _ | JObject _ => true
  end.

(** [v || d] for a property that may be missing. *)
Definition orDefault (v : option Json) (d : string) : Json :=
  match v with
  | Some j => if truthy j then j else JString d
  | None => JString d
  end.

Definition SCOPES : list string :=
  [ "https://www.googleapis.com/auth/spreadsheets";
    "https://www.googleapis.com/auth/drive.file" ].

Record AuthUrlOptions : Type := mkAuthUrlOptions {
  access_type : string;
  scope : list string;
  prompt : string
}.

(** A computation that reads and writes [tokens.json] and may throw. *)
Definition M (A : Type) : Type := Disk -> Disk * Result A.

Definition ret {A : Type} (a : A) : M A := fun d => (d, ok a).

Definition bind {A B : Type} (m : M A) (k : A -> M B) : M B :=
  fun d =>
    match m d with
    | (d', ok a) => k a d'
    | (d', thrown) => (d', thrown)
    end.

Definition lift {A : Type} (r : Result A) : M A := fun d => (d, r).

Notation "x <- m ;; k" := (bind m (fun x => k))
  (at level 61, m at next level, right associativity).

(** [try { ... } catch (err) { res.status(500).json(...) }] *)
Definition tryCatch (m : M Reply) (onError : Reply) : Disk -> Disk * Reply :=
  fun d =>
    match m d with
    | (d', ok r) => (d', r)
    | (d', thrown) => (d', onError)
    end.

Definition existsSync (d : Disk) : bool :=
  match tokensFile d with
  | Some _ => true
  | None => false
  end.

Definition readFileSync : M string :=
  fun d =>
    match tokensFile d with
    | Some content => (d, ok content)
    | None => (d, thrown)
    end.

Definition writeFileSync (content : string) : M unit :=
  fun d =>
    if writable d
    then ({| tokensFile := Some content; writable := writable d |}, ok tt)
    else (d, thrown).

Section Controller.

Variables Client Tokens : Type.

(** [new google.auth.OAuth2(clientId, clientSecret, redirectUri)] *)
Variable OAuth2 : string -> string -> string -> Client.
Variable generateAuthUrl : Client -> AuthUrlOptions -> Result string.
Variable getToken : Client -> Json -> Result Tokens.
Variable setCredentials : Client -> Tokens -> Client.

(** [google.sheets({ version: 'v4', auth })] and [spreadsheets.create] of a
    spreadsheet with the given title and one sheet, [Sheet1]; the result is
    [response.data.spreadsheetId]. *)
Variable createSpreadsheet : Client -> Json -> Result string.

(** [JSON.stringify(tokens, null, 2)] and [JSON.parse]. *)
Variable stringify : Tokens -> string.
Variable parse : string -> Result Tokens.

(** An environment variable that is set and not empty: [!v] is false. *)
Definition present (v : option string) : bool :=
  match v with
  | Some s => negb (s =? "")%string
  | None => false
  end.

Definition getOAuth2Client (env : Env) : Result Client :=
  let clientId := GOOGLE_CLIENT_ID env in
  let clientSecret := GOOGLE_CLIENT_SECRET env in
  let redirectUri := GOOGLE_REDIRECT_URI env in
  if negb (present clientId) || negb (present clientSecret)
     || negb (present redirectUri)
  then thrown
  else
    match clientId, clientSecret, redirectUri with
    | Some clientId, Some clientSecret, Some redirectUri =>
        ok (OAuth2 clientId clientSecret redirectUri)
    | _, _, _ => thrown
    end.

Definition redirectToGoogle (env : Env) : Reply :=
  match getOAuth2Client env with
  | thrown => json 500 (errorBody "Failed to generate auth URL")
  | ok oAuth2Client =>
      match generateAuthUrl oAuth2Client
              (mkAuthUrlOptions "offline" SCOPES "consent") with
      | thrown => json 500 (errorBody "Failed to generate auth URL")
      | ok authUrl => redirect authUrl
      end
  end.

Definition created (spreadsheetId : string) : Reply :=
  let spreadsheetUrl := "https://docs.google.com/spreadsheets/d/" ++ spreadsheetId in
  json 200
    (JObject [ ("message", JString "Spreadsheet created");
               ("spreadsheetId", JString spreadsheetId);
               ("spreadsheetUrl", JString spreadsheetUrl) ]).

Definition googleCallback (env : Env) (req : Request) : Disk -> Disk * Reply :=
  tryCatch
    (match lookup "code" (query req) with
     | None => ret (send 400 "Missing code")
     | Some code =>
         if negb (truthy code) then ret (send 400 "Missing code")
         else
           oAuth2Client <- lift (getOAuth2Client env) ;;
           tokens <- lift (getToken oAuth2Client code) ;;
           let oAuth2Client := setCredentials oAuth2Client tokens in
           _ <- writeFileSync (stringify tokens) ;;
           let title := orDefault (lookup "title" (query req))
                          "New Spreadsheet from App" in
           spreadsheetId <- lift (createSpreadsheet oAuth2Client title) ;;
           ret (created spreadsheetId)
     end)
    (json 500 (errorBody "Failed to exchange code or create spreadsheet")).

Definition createSpreadsheetFromStoredTokens (env : Env) (req : Request)
  : Disk -> Disk * Reply :=
  tryCatch
    (fun d =>
       if negb (existsSync d)
       then ret (json 400 (errorBody "No stored tokens. Authorize first via /auth/google")) d
       else
         (content <- readFileSync ;;
          tokens <- lift (parse content) ;;
          oAuth2Client <- lift (getOAuth2Client env) ;;
          let oAuth2Client := setCredentials oAuth2Client tokens in
          requestBody <- lift (match body req with
                               | Some b => ok b
                               | None => thrown
                               end) ;;
          let title := orDefault (lookup "title" requestBody)
                         "New Spreadsheet from Stored Tokens" in
          spreadsheetId <- lift (createSpreadsheet oAuth2Client title) ;;
          ret (created spreadsheetId)) d)
    (json 500 (errorBody "Failed to create spreadsheet")).

End Controller.

Arguments getOAuth2Client {Client} OAuth2 env.
Arguments redirectToGoogle {Client} OAuth2 generateAuthUrl env.
Arguments googleCallback {Client Tokens} OAuth2 getToken setCredentials
  createSpreadsheet stringify env req _.
Arguments createSpreadsheetFromStoredTokens {Client Tokens} OAuth2 setCredentials
  createSpreadsheet parse env req _.

End Google.

(** ** The specification's reading of the operations *)

Module Spec.

(** An entry that counts: [received = true] and [parse(amount) > 0]. *)
Definition counts (s : Source) : bool :=
  received s && gtb (clampNumber (amount s)) 0.

Definition sum (l : list Q) : Q := fold_right Qplus 0 l.

(** computeTotalIncome: the sum of [parse(amount)] over the entries that
    count. *)
Definition computeTotalIncome (sources : list Source) : Q :=
  sum (map (fun s => clampNumber (amount s)) (filter counts sources)).

End Spec.

(** ** [Number] and [clampNumber] on some texts *)

Example Number_decimal :
  JS.Number " 12.50 " = JS.Finite 12.50 /\ JS.Number "1e3" = JS.Finite 1000
  /\ JS.Number ".5" = JS.Finite 0.5 /\ JS.Number "-5" = JS.Finite (-5).
Proof.
  repeat split.
Qed.

Example Number_not_numeric :
  JS.Number "abc" = JS.NaN /\ JS.Number "1 2" = JS.NaN /\ JS.Number "." = JS.NaN
  /\ JS.Number "1e" = JS.NaN /\ JS.Number "-0x10" = JS.NaN.
Proof.
  repeat split.
Qed.

Example Number_out_of_range :
  JS.Number "1e999" = JS.PosInfinity /\ JS.Number "-Infinity" = JS.NegInfinity
  /\ JS.Number "1e-400" = JS.Finite 0 /\ JS.Number "0x1F" = JS.Finite 31.
Proof.
  repeat split; vm_compute; reflexivity.
Qed.

Example clampNumber_texts :
  clampNumber "" = 0 /\ clampNumber "abc" = 0 /\ clampNumber "Infinity" = 0
  /\ clampNumber "1000" = 1000 /\ clampNumber "-5" = -5.
Proof.
  repeat split.
Qed.

(** ** Comparisons *)

Lemma gtb_true_iff (a b : Q) : gtb a b = true <-> b < a.
Proof.
  unfold gtb. rewrite negb_true_iff. split; intro H.
  - apply Qnot_le_lt. intro Hle. apply Qle_bool_iff in Hle. congruence.
  - destruct (Qle_bool a b) eqn:E; [|reflexivity].
    apply Qle_bool_iff in E. exfalso. exact (Qlt_not_le _ _ H E).
Qed.

Lemma gtb_false_iff (a b : Q) : gtb a b = false <-> a <= b.
Proof.
  unfold gtb. rewrite negb_false_iff. apply Qle_bool_iff.
Qed.

Lemma Qle_bool_false_iff (a b : Q) : Qle_bool a b = false <-> b < a.
Proof.
  rewrite <- gtb_true_iff. unfold gtb. now rewrite negb_true_iff.
Qed.

(** ** Total income *)

Section TotalIncome.

Lemma sum_counts_nonneg (l : list Source) :
  0 <= Spec.computeTotalIncome l.
Proof.
  unfold Spec.computeTotalIncome.
  induction l as [|s l IH]; simpl.
  - apply Qle_refl.
  - destruct (Spec.counts s) eqn:E; simpl; [|exact IH].
    apply andb_true_iff in E. destruct E as [_ E].
    apply gtb_true_iff in E. lra.
Qed.

Lemma sum_counts_pos_iff (l : list Source) :
  0 < Spec.computeTotalIncome l <-> existsb Spec.counts l = true.
Proof.
  unfold Spec.computeTotalIncome.
  induction l as [|s l IH]; simpl.
  - split; [intro H; exfalso; lra | discriminate].
  - destruct (Spec.counts s) eqn:E; simpl.
    + split; [reflexivity | intros _].
      pose proof (sum_counts_nonneg l) as Hl.
      unfold Spec.computeTotalIncome in Hl.
      apply andb_true_iff in E. destruct E as [_ E].
      apply gtb_true_iff in E. lra.
    + exact IH.
Qed.

(** The left fold of the reducer, from any starting sum. *)
Lemma totalIncome_from (l : list Source) : forall a : Q,
  fold_left
    (fun sum s =>
       if negb (received s) then sum
       else
         let amt := clampNumber (amount s) in
         sum + (if gtb amt 0 then amt else 0))
    l a
  == a + Spec.computeTotalIncome l.
Proof.
  unfold Spec.computeTotalIncome.
  induction l as [|s l IH]; intro a; simpl.
  - unfold Spec.sum. simpl. ring.
  - rewrite IH. unfold Spec.counts.
    destruct (received s); simpl; [|reflexivity].
    destruct (gtb (clampNumber (amount s)) 0); simpl; ring.
Qed.

Lemma totalIncome_sum (l : list Source) :
  totalIncome l == Spec.computeTotalIncome l.
Proof.
  unfold totalIncome. rewrite totalIncome_from. ring.
Qed.

Lemma totalIncome_nonneg (l : list Source) : 0 <= totalIncome l.
Proof.
  rewrite totalIncome_sum. apply sum_counts_nonneg.
Qed.

Lemma totalIncome_pos_iff (l : list Source) :
  0 < totalIncome l <-> existsb Spec.counts l = true.
Proof.
  rewrite totalIncome_sum. apply sum_counts_pos_iff.
Qed.

End TotalIncome.

(** ** Stage 1 *)

(** A received entry whose parsed amount is not positive. *)
Definition nonPositive (s : Source) : bool :=
  received s && Qle_bool (clampNumber (amount s)) 0.

Lemma pushes_from (l : list Source) : forall errs : list string,
  fold_left
    (fun errs s =>
       if received s && Qle_bool (clampNumber (amount s)) 0
       then push errs (NonPositiveSourceAmount s)
       else errs)
    l errs
  = (errs ++ map NonPositiveSourceAmount (filter nonPositive l))%list.
Proof.
  induction l as [|s l IH]; intro errs; simpl.
  - now rewrite app_nil_r.
  - rewrite IH. unfold nonPositive at 2, push.
    destruct (received s && Qle_bool (clampNumber (amount s)) 0); simpl.
    + now rewrite <- app_assoc.
    + reflexivity.
Qed.

Lemma step1Errors_shape (l : list Source) :
  step1Errors l
  = ((if existsb Spec.counts l then [] else [MissingReceivedIncome])
     ++ map NonPositiveSourceAmount (filter nonPositive l))%list.
Proof.
  unfold step1Errors. rewrite pushes_from.
  fold Spec.counts.
  change (existsb (fun s => received s && gtb (clampNumber (amount s)) 0) l)
    with (existsb Spec.counts l).
  destruct (existsb Spec.counts l); reflexivity.
Qed.

Lemma filter_nil_iff {A : Type} (p : A -> bool) (l : list A) :
  filter p l = [] <-> forall x, In x l -> p x = false.
Proof.
  induction l as [|a l IH]; simpl.
  - split; [intros _ x [] | reflexivity].
  - destruct (p a) eqn:E.
    + split; [discriminate|]. intro H. specialize (H a (or_introl eq_refl)).
      congruence.
    + rewrite IH. split.
      * intros H x [<-|Hx]; [assumption | now apply H].
      * intros H x Hx. apply H. now right.
Qed.

Lemma nonPositive_false_iff (s : Source) :
  nonPositive s = false <-> (received s = true -> 0 < clampNumber (amount s)).
Proof.
  unfold nonPositive. rewrite andb_false_iff, Qle_bool_false_iff.
  destruct (received s); split; intros H.
  - intros _. destruct H as [H|H]; [discriminate | exact H].
  - right. now apply H.
  - discriminate.
  - now left.
Qed.

(** C2, as the code has it.  The error list of stage 1 is empty exactly
    when the total income is positive and every received entry has a
    positive parsed amount. *)
Theorem step1Errors_empty_iff (sources : list Source) :
  step1Errors sources = []
  <-> (0 < totalIncome sources
       /\ forall s, In s sources -> received s = true ->
                    0 < clampNumber (amount s)).
Proof.
  rewrite step1Errors_shape, totalIncome_pos_iff.
  split.
  - intro H. apply app_eq_nil in H. destruct H as [H1 H2].
    split.
    + destruct (existsb Spec.counts sources); [reflexivity | discriminate].
    + apply map_eq_nil in H2.
      intros s Hs. apply nonPositive_false_iff.
      revert s Hs. now apply filter_nil_iff.
  - intros [H1 H2]. rewrite H1. simpl.
    replace (filter nonPositive sources) with (@nil Source); [reflexivity|].
    symmetry. apply filter_nil_iff. intros s Hs.
    apply nonPositive_false_iff. now apply H2.
Qed.

Lemma step1Errors_empty_iff_witness :
  step1Errors [mkSource "bpi" "BPI" true "1000"; mkSource "gcash" "GCash" false "500"]
  = [].
Proof.
  apply (proj2 (step1Errors_empty_iff
                  [mkSource "bpi" "BPI" true "1000";
                   mkSource "gcash" "GCash" false "500"])).
  split.
  - vm_compute. reflexivity.
  - intros s [<-|[<-|[]]]; simpl; intro H.
    + vm_compute. reflexivity.
    + discriminate.
Defined.

(** C2 as stated fails: with one entry received at 1000 and one received
    with no amount, the total income is positive and stage 1 has an
    error. *)
Lemma step1Errors_with_positive_income :
  let l := [mkSource "bpi" "BPI" true "1000"; mkSource "gcash" "GCash" true ""] in
  ~ (step1Errors l = [] <-> 0 < totalIncome l).
Proof.
  intros l [_ H].
  assert (Hpos : 0 < totalIncome l) by (vm_compute; reflexivity).
  specialize (H Hpos). vm_compute in H. discriminate.
Qed.

(** ** Stage 2 *)

Lemma step1Valid_false_iff (t : Q) : step1Valid t = false <-> t <= 0.
Proof.
  unfold step1Valid. apply gtb_false_iff.
Qed.

Lemma step2Errors_locked (mode : Mode) (funds : Funds string) (a t : Q) :
  step2Errors false mode funds a t = [Stage2Locked].
Proof.
  reflexivity.
Qed.

Lemma step2Errors_percent (funds : Funds string) (a t : Q) :
  step2Errors true percent_mode funds a t
  = if gtb (pctTotal funds) 100.0001 then [PercentTotalExceeds100] else [].
Proof.
  unfold step2Errors. simpl.
  destruct (gtb (pctTotal funds) 100.0001); reflexivity.
Qed.

(** The two inputs of the scenarios of the specification. *)
Definition scenarioSources : list Source :=
  [ mkSource "bpi" "BPI" true "1000"; mkSource "gcash" "GCash" false "500" ].

Definition scenarioState (m : Mode) (f : Funds string) : State :=
  {| sources := scenarioSources; mode := m; funds := f;
     toast := None; doneSummary := None |}.

(** C4.  With stage 1 invalid the error list of stage 2 is the single
    [Stage2Locked] message, whatever the mode, the fund fields and the
    totals; in a render whose total income is 0 this is the list shown, and
    DONE is disabled. *)
Theorem step2Errors_locked_when_stage1_invalid :
  (forall (mode : Mode) (funds : Funds string) (allocatedTotal totalIncome : Q),
      totalIncome == 0 ->
      step2Errors (step1Valid totalIncome) mode funds allocatedTotal totalIncome
      = [Stage2Locked])
  /\ (forall st : State,
         Render.totalIncome st == 0 ->
         Render.step2Errors st = [Stage2Locked] /\ Render.canDone st = false).
Proof.
  assert (H0 : forall t : Q, t == 0 -> step1Valid t = false).
  { intros t Ht. apply step1Valid_false_iff. rewrite Ht. apply Qle_refl. }
  split.
  - intros mode funds a t Ht. rewrite (H0 t Ht). apply step2Errors_locked.
  - intros st Ht. unfold Render.canDone, Render.step2Errors, Render.step1Valid.
    rewrite (H0 _ Ht). split; reflexivity.
Qed.

Lemma step2Errors_locked_when_stage1_invalid_witness :
  let st := {| sources := [ mkSource "bpi" "BPI" false "1000";
                            mkSource "gcash" "GCash" true "abc" ];
               mode := percent_mode;
               funds := mkFunds "30" "30" "30" "20";
               toast := None; doneSummary := None |} in
  Render.step2Errors st = [Stage2Locked] /\ Render.canDone st = false.
Proof.
  intro st.
  apply (proj2 step2Errors_locked_when_stage1_invalid st).
  vm_compute. reflexivity.
Defined.

(** ** Switching the mode *)

(** C6.  [setMode] leaves the stored fund texts as they are; after going to
    [percent] and back to [amount] the converted amounts are the parsed
    stored texts, with no conversion of units. *)
Theorem setMode_keeps_fund_text (st : State) :
  (forall m : Mode,
      funds (setMode m st) = funds st
      /\ sources (setMode m st) = sources st
      /\ doneSummary (setMode m st) = doneSummary st)
  /\ (let st' := setMode amount_mode (setMode percent_mode st) in
      funds st' = funds st
      /\ Render.fundsAsAmount st'
         = mkFunds (clampNumber (ef (funds st))) (clampNumber (sf (funds st)))
             (clampNumber (spending (funds st))) (clampNumber (fun_ (funds st)))).
Proof.
  split.
  - intro m. repeat split.
  - split; reflexivity.
Qed.

(** ** The scenario of the specification *)

(** C7.  One entry received at 1000 and one not received at 500, mode
    [amount], fields 300, 200, 400 and 50: the total income is 1000, stage 1
    has no error, 950 is allocated, 50 remains, stage 2 has no error and
    DONE is enabled. *)
Theorem scenario_amount_mode :
  let st := scenarioState amount_mode (mkFunds "300" "200" "400" "50") in
  Render.totalIncome st == 1000
  /\ Render.step1Errors st = []
  /\ Render.allocatedTotal st == 950
  /\ Render.remaining st == 50
  /\ Render.step2Errors st = []
  /\ Render.canDone st = true.
Proof.
  repeat split; vm_compute; reflexivity.
Qed.

(** ** Reset *)

Lemma resetAll_sources (st : State) :
  sources (resetAll st)
  = map (fun s => mkSource (id s) (name s) false "") (sources st).
Proof.
  reflexivity.
Qed.

Lemma addSource_sources (name' : string) (now : N) (st : State) :
  name' <> "" ->
  sources (addSource (Some name') now st)
  = (sources st ++ [mkSource (newSourceId name' now) name' false ""])%list.
Proof.
  intro H. unfold addSource.
  destruct (String.eqb_spec name' ""); [contradiction | reflexivity].
Qed.

(** C8.  After a reset the sources are the same entries in the same order
    with the same ids and names, each with [received = false] and an empty
    amount; the four fund fields are empty, the mode is [amount] and the
    finalized snapshot is cleared.  A source added before the reset is
    still there. *)
Theorem resetAll_clears_inputs_keeps_sources (st : State) :
  map id (sources (resetAll st)) = map id (sources st)
  /\ map name (sources (resetAll st)) = map name (sources st)
  /\ List.length (sources (resetAll st)) = List.length (sources st)
  /\ Forall (fun s => received s = false /\ amount s = "") (sources (resetAll st))
  /\ funds (resetAll st) = mkFunds "" "" "" ""
  /\ mode (resetAll st) = amount_mode
  /\ doneSummary (resetAll st) = None
  /\ (forall (name' : string) (now : N),
         name' <> "" ->
         In (mkSource (newSourceId name' now) name' false "")
           (sources (resetAll (addSource (Some name') now st)))).
Proof.
  rewrite resetAll_sources.
  repeat split.
  - rewrite map_map. reflexivity.
  - rewrite map_map. reflexivity.
  - apply length_map.
  - apply Forall_forall. intros s Hs. apply in_map_iff in Hs.
    destruct Hs as [x [<- _]]. split; reflexivity.
  - intros name' now Hn.
    rewrite resetAll_sources, (addSource_sources name' now st Hn), map_app.
    apply in_or_app. right. left. reflexivity.
Qed.

Lemma resetAll_clears_inputs_keeps_sources_witness :
  In (mkSource "maya-1700000000000" "Maya" false "")
    (sources (resetAll (addSource (Some "Maya") 1700000000000 initialState))).
Proof.
  apply (proj2 (proj2 (proj2 (proj2 (proj2 (proj2 (proj2
           (resetAll_clears_inputs_keeps_sources initialState)))))))
           "Maya" 1700000000000%N).
  discriminate.
Defined.

(** ** Save and DONE under errors *)




(** ** The received toggle *)

Lemma id_unique (l : list Source) (x y : Source) :
  NoDup (map id l) -> In x l -> In y l -> id x = id y -> x = y.
Proof.
  induction l as [|a l IH]; simpl; intros Hnd Hx Hy Hid; [contradiction|].
  inversion Hnd as [|? ? Hnotin Hnd']; subst.
  destruct Hx as [<-|Hx], Hy as [<-|Hy].
  - reflexivity.
  - exfalso. apply Hnotin. rewrite Hid. now apply in_map.
  - exfalso. apply Hnotin. rewrite <- Hid. now apply in_map.
  - now apply IH.
Qed.

Lemma updateSource_nth (id' : string) (patch : Patch.t) (st : State) (i : nat) :
  nth_error (sources (updateSource id' patch st)) i
  = option_map (fun s => if (id s =? id')%string then applyPatch s patch else s)
      (nth_error (sources st) i).
Proof.
  unfold updateSource. simpl. apply nth_error_map.
Qed.

(** C10.  In a list with distinct ids, the checkbox of the card of [s]
    replaces [s], at its place, by the entry with the new [received] flag
    whose amount is empty when the flag is off and the stored text when it
    is on; every other entry stays as it is, as do the fund fields, the
    mode and the snapshot.  Switched off and then on again, the entry has an
    empty amount, which reads as 0. *)
Theorem onReceivedChange_toggles_one_source
  (st : State) (s : Source) (checked : bool) :
  NoDup (map id (sources st)) ->
  In s (sources st) ->
  let st' := onReceivedChange s checked st in
  (forall i, nth_error (sources st) i = Some s ->
             nth_error (sources st') i
             = Some (mkSource (id s) (name s) checked
                       (if checked then amount s else "")))
  /\ (forall i x, nth_error (sources st) i = Some x -> x <> s ->
                  nth_error (sources st') i = Some x)
  /\ List.length (sources st') = List.length (sources st)
  /\ funds st' = funds st /\ mode st' = mode st
  /\ doneSummary st' = doneSummary st
  /\ (let off := mkSource (id s) (name s) false "" in
      let st'' := onReceivedChange off true (onReceivedChange s false st) in
      forall i, nth_error (sources st) i = Some s ->
                nth_error (sources st'') i = Some (mkSource (id s) (name s) true "")
                /\ clampNumber "" == 0).
Proof.
  intros Hnd Hin st'. subst st'. unfold onReceivedChange.
  split; [|split; [|split; [|split; [|split; [|split]]]]]; try reflexivity.
  - intros i Hi. rewrite updateSource_nth, Hi. simpl.
    now rewrite String.eqb_refl.
  - intros i x Hi Hx. rewrite updateSource_nth, Hi. simpl.
    destruct (String.eqb_spec (id x) (id s)) as [E|E]; [|reflexivity].
    exfalso. apply Hx.
    apply (id_unique (sources st)); try assumption.
    eapply nth_error_In; eassumption.
  - unfold updateSource. simpl. apply length_map.
  - intros i Hi. split; [|reflexivity].
    rewrite !updateSource_nth, Hi. simpl.
    rewrite String.eqb_refl. simpl. now rewrite String.eqb_refl.
Qed.

Lemma onReceivedChange_toggles_one_source_witness :
  let st := {| sources := [ mkSource "bpi" "BPI" true "1000";
                            mkSource "gcash" "GCash" true "500" ];
               mode := amount_mode;
               funds := mkFunds "" "" "" "";
               toast := None; doneSummary := None |} in
  let st' := onReceivedChange (mkSource "bpi" "BPI" true "1000") false st in
  nth_error (sources st') 0 = Some (mkSource "bpi" "BPI" false "")
  /\ nth_error (sources st') 1 = Some (mkSource "gcash" "GCash" true "500").
Proof.
  intros st st'.
  assert (Hnd : NoDup (map id (sources st))).
  { simpl. repeat constructor; simpl; intuition discriminate. }
  assert (Hin : In (mkSource "bpi" "BPI" true "1000") (sources st)).
  { left. reflexivity. }
  destruct (onReceivedChange_toggles_one_source st _ false Hnd Hin)
    as [H1 [H2 _]].
  split.
  - apply (H1 0%nat). reflexivity.
  - apply (H2 1%nat); [reflexivity | discriminate].
Defined.

(** * Properties of the binary64 values *)

Module B64Facts.

(** ** Rounding keeps the sign *)

(** A number with the sign [s]; [NaN] has none. *)
Definition hasSign (s : bool) (x : B64.float) : bool :=
  match x with
  | S754_zero s' | S754_infinity s' | S754_finite s' _ _ => Bool.eqb s s'
  | S754_nan => false
  end.

Lemma shr_1_nonneg (mrs : shr_record) :
  (0 <= shr_m mrs)%Z -> (0 <= shr_m (shr_1 mrs))%Z.
Proof.
  destruct mrs as [m r s]. simpl. intro H.
  destruct m as [|p|p]; simpl; try lia.
  destruct p; simpl; lia.
Qed.

Lemma iter_shr_1_nonneg (n : positive) : forall mrs,
  (0 <= shr_m mrs)%Z -> (0 <= shr_m (iter_pos shr_1 n mrs))%Z.
Proof.
  induction n as [n IH|n IH|]; intros mrs H; simpl.
  - apply IH, IH, shr_1_nonneg, H.
  - apply IH, IH, H.
  - apply shr_1_nonneg, H.
Qed.

Lemma shr_fexp_nonneg (m e : Z) (l : location) :
  (0 <= m)%Z -> (0 <= shr_m (fst (shr_fexp B64.prec B64.emax m e l)))%Z.
Proof.
  intro H. unfold shr_fexp, shr.
  assert (H0 : (0 <= shr_m (shr_record_of_loc m l))%Z).
  { destruct l as [|[]]; exact H. }
  destruct (fexp B64.prec B64.emax (Zdigits2 m + e) - e)%Z; simpl; try exact H0.
  now apply iter_shr_1_nonneg.
Qed.

Lemma round_nearest_even_nonneg (m : Z) (l : location) :
  (0 <= m)%Z -> (0 <= round_nearest_even m l)%Z.
Proof.
  intro H. destruct l as [|[]]; simpl; try lia.
  destruct (Z.even m); lia.
Qed.

Lemma binary_round_aux_sign (s : bool) (m e : Z) (l : location) :
  (0 <= m)%Z -> hasSign s (binary_round_aux B64.prec B64.emax s m e l) = true.
Proof.
  intro H. unfold binary_round_aux.
  pose proof (shr_fexp_nonneg m e l H) as H1.
  destruct (shr_fexp B64.prec B64.emax m e l) as [mrs' e']. simpl in H1.
  pose proof (shr_fexp_nonneg _ e' loc_Exact
                (round_nearest_even_nonneg _ (loc_of_shr_record mrs') H1)) as H2.
  destruct (shr_fexp B64.prec B64.emax _ e' loc_Exact) as [mrs'' e''].
  simpl in H2.
  destruct (shr_m mrs'') as [|p|p]; simpl.
  - apply Bool.eqb_reflx.
  - destruct (_ <=? _)%Z; simpl; apply Bool.eqb_reflx.
  - lia.
Qed.

Lemma binary_round_sign (s : bool) (m : positive) (e : Z) :
  hasSign s (binary_round B64.prec B64.emax s m e) = true.
Proof.
  unfold binary_round.
  destruct (shl_align m e _) as [mz ez].
  apply binary_round_aux_sign. lia.
Qed.

Lemma add_nonneg (x y : B64.float) :
  hasSign false x = true -> hasSign false y = true ->
  hasSign false (B64.add x y) = true.
Proof.
  destruct x as [[]|[]| |[] mx ex]; try discriminate;
    destruct y as [[]|[]| |[] my ey]; try discriminate; intros _ _;
    try reflexivity.
  unfold B64.add, SFadd. simpl cond_Zopp.
  destruct (shl_align mx ex (Z.min ex ey)) as [a ea].
  destruct (shl_align my ey (Z.min ex ey)) as [b eb]. simpl.
  apply binary_round_sign.
Qed.

Lemma add_zero_r (x : B64.float) :
  x <> S754_zero true -> B64.add x B64.zero = x.
Proof.
  destruct x as [[]|[]| |s m e]; intro H; try reflexivity. contradiction.
Qed.

Lemma hasSign_le_zero (x : B64.float) :
  hasSign false x = true -> B64.le B64.zero x = true.
Proof.
  destruct x as [[]|[]| |[] m e]; simpl; intro H; try discriminate; reflexivity.
Qed.

Lemma gt_zero_hasSign (x : B64.float) :
  B64.gt x B64.zero = true -> hasSign false x = true.
Proof.
  destruct x as [[]|[]| |[] m e]; simpl; intro H; try discriminate; reflexivity.
Qed.

Lemma mul_nonneg (x y : B64.float) :
  B64.isFinite x = true -> B64.isFinite y = true ->
  B64.le B64.zero x = true -> B64.le B64.zero y = true ->
  B64.le B64.zero (B64.mul x y) = true.
Proof.
  destruct x as [sx|[]| |[] mx ex]; try discriminate;
    destruct y as [sy|[]| |[] my ey]; try discriminate; intros _ _ _ _;
    try reflexivity.
  apply hasSign_le_zero. unfold B64.mul, SFmul.
  apply binary_round_aux_sign. simpl. lia.
Qed.

Lemma div_core_nonneg (m1 : positive) (e1 : Z) (m2 : positive) (e2 : Z) :
  (0 <= fst (fst (SFdiv_core_binary B64.prec B64.emax (Zpos m1) e1 (Zpos m2) e2)))%Z.
Proof.
  unfold SFdiv_core_binary.
  set (s := (_ - _ - Z.min _ _)%Z).
  set (m' := match s with
             | Z0 => Zpos m1
             | Zpos _ => Z.shiftl (Zpos m1) s
             | Zneg _ => 0%Z
             end).
  assert (Hm : (0 <= m')%Z).
  { unfold m'. destruct s; try lia. apply Z.shiftl_nonneg. lia. }
  pose proof (Z_div_mod m' (Zpos m2) eq_refl) as H.
  destruct (Z.div_eucl m' (Zpos m2)) as [q r]. simpl.
  destruct H as [H1 H2]. nia.
Qed.

Lemma div_hundred_nonneg (x : B64.float) :
  B64.le B64.zero x = true -> B64.le B64.zero (B64.div x B64.hundred) = true.
Proof.
  destruct x as [sx|[]| |[] mx ex]; try discriminate; intros _;
    try reflexivity.
  apply hasSign_le_zero. unfold B64.div, B64.hundred, SFdiv.
  match goal with
  | |- context [SFdiv_core_binary ?p ?e (Zpos ?a) ?b (Zpos ?c) ?d] =>
      pose proof (div_core_nonneg a b c d) as H;
      destruct (SFdiv_core_binary p e (Zpos a) b (Zpos c) d) as [[mz ez] lz]
  end.
  simpl in H. now apply binary_round_aux_sign.
Qed.

Lemma eqb_finite (s : bool) (m : positive) (e : Z) (x : B64.float) :
  B64.strictEquals (S754_finite s m e) x = true -> x = S754_finite s m e.
Proof.
  unfold B64.strictEquals, SFeqb.
  destruct x as [sx|sx| |sx mx ex]; simpl.
  - destruct s; discriminate.
  - destruct sx; discriminate.
  - discriminate.
  - destruct s, sx; try discriminate;
      (destruct (e ?= ex)%Z eqn:E; try discriminate;
       apply Z.compare_eq in E; subst ex;
       destruct (Pos.compare_cont Eq m mx) eqn:C; try discriminate;
       intros _; apply Pos.compare_eq in C; now subst).
Qed.

Lemma clampNumber_finite (v : string) : B64.isFinite (B64.clampNumber v) = true.
Proof.
  unfold B64.clampNumber.
  destruct (B64.isFinite (B64.Number v)) eqn:E; [exact E | reflexivity].
Qed.

(** ** [Number] in binary64 *)

Example Number_rounds_to_nearest :
  B64.Number "0.1" = S754_finite false 7205759403792794 (-56)
  /\ B64.Number "9007199254740993" = B64.Number "9007199254740992"
  /\ B64.Number "1.0000000000000000001" = B64.Number "1"
  /\ B64.Number "0x1F" = B64.Number "31"
  /\ B64.Number " 12.50 " = B64.Number "1.25e1".
Proof.
  repeat split; vm_compute; reflexivity.
Qed.

Example Number_range :
  B64.Number "1.7976931348623157e308" = S754_finite false 9007199254740991 971
  /\ B64.Number "1.7976931348623159e308" = S754_infinity false
  /\ B64.Number "-1e999" = S754_infinity true
  /\ B64.Number "5e-324" = S754_finite false 1 (-1074)
  /\ B64.Number "2e-324" = S754_zero false
  /\ B64.Number "-0" = S754_zero true.
Proof.
  repeat split; vm_compute; reflexivity.
Qed.

Example Number_white_space_and_text :
  let nbsp := String (ascii_of_N 194) (String (ascii_of_N 160) "") in
  B64.Number (nbsp ++ "5" ++ nbsp) = B64.Number "5"
  /\ B64.Number "" = B64.zero
  /\ B64.Number "abc" = S754_nan
  /\ B64.Number "1 2" = S754_nan
  /\ B64.clampNumber "abc" = B64.zero
  /\ B64.clampNumber "Infinity" = B64.zero
  /\ B64.clampNumber "-5" = SFopp (B64.Number "5").
Proof.
  repeat split; vm_compute; reflexivity.
Qed.

(** ** Total income *)

(** The sum of a list, added from left to right starting at 0. *)
Definition leftSum (l : list B64.float) : B64.float :=
  fold_left B64.add l B64.zero.

Lemma totalIncome_left_fold (l : list Source) : forall acc : B64.float,
  hasSign false acc = true ->
  fold_left
    (fun sum s =>
       if negb (received s) then sum
       else
         let amt := B64.clampNumber (amount s) in
         B64.add sum (if B64.gt amt B64.zero then amt else B64.zero))
    l acc
  = fold_left B64.add
      (map (fun s => B64.clampNumber (amount s))
         (filter (fun s => received s && B64.gt (B64.clampNumber (amount s)) B64.zero)
            l))
      acc
  /\ hasSign false
       (fold_left B64.add
          (map (fun s => B64.clampNumber (amount s))
             (filter (fun s => received s && B64.gt (B64.clampNumber (amount s)) B64.zero)
                l))
          acc) = true.
Proof.
  induction l as [|s l IH]; intros acc Hacc; simpl.
  - split; [reflexivity | exact Hacc].
  - destruct (received s); simpl; [|now apply IH].
    destruct (B64.gt (B64.clampNumber (amount s)) B64.zero) eqn:G; simpl.
    + apply IH. apply add_nonneg; [exact Hacc | now apply gt_zero_hasSign].
    + rewrite add_zero_r; [now apply IH|].
      intro E. rewrite E in Hacc. discriminate.
Qed.

(** C3.  The total income is the sum, added in binary64 from left to right
    starting at 0, of the parsed amounts of the entries that are received
    and whose parsed amount is positive; every other entry leaves the sum
    as it is, and the total is never negative and never [NaN].  So 0.1,
    0.2 and 0.3 give 0.6000000000000001, whatever lies between them, and
    two amounts of 1e308 give [Infinity]. *)
Theorem totalIncome_is_left_sum :
  (forall sources : list Source,
      B64.totalIncome sources
      = leftSum
          (map (fun s => B64.clampNumber (amount s))
             (filter
                (fun s => received s && B64.gt (B64.clampNumber (amount s)) B64.zero)
                sources))
      /\ B64.le B64.zero (B64.totalIncome sources) = true)
  /\ (let on := fun a => mkSource "bpi" "BPI" true a in
      let off := fun a => mkSource "gcash" "GCash" false a in
      B64.totalIncome [on "0.1"; off "7"; on "0.2"; on "abc"; on "-4"; on "0.3"]
      = B64.Number "0.6000000000000001"
      /\ B64.totalIncome [on "1e308"; on "1e308"] = S754_infinity false
      /\ B64.Number "0.6000000000000001" = S754_finite false 5404319552844596 (-53)).
Proof.
  split.
  - intro l. destruct (totalIncome_left_fold l B64.zero eq_refl) as [H1 H2].
    split; [exact H1|].
    apply hasSign_le_zero.
    replace (B64.totalIncome l) with
      (fold_left B64.add
         (map (fun s => B64.clampNumber (amount s))
            (filter
               (fun s => received s && B64.gt (B64.clampNumber (amount s)) B64.zero)
               l))
         B64.zero) by (symmetry; exact H1).
    exact H2.
  - repeat split; vm_compute; reflexivity.
Qed.

(** ** Conversion of the allocations *)

(** [parse(field)] clamped to [>= 0], unparsable text read as 0, as the
    specification has it. *)
Definition parseClamped (field : string) : B64.float :=
  let n := B64.clampNumber field in
  if B64.gt B64.zero n then B64.zero else n.

(** convertAllocations as the specification words it. *)
Definition convertAllocations (funds : Funds string) (mode : Mode)
  (totalIncome : B64.float) : Funds B64.float :=
  match mode with
  | amount_mode =>
      mkFunds (parseClamped (ef funds)) (parseClamped (sf funds))
        (parseClamped (spending funds)) (parseClamped (fun_ funds))
  | percent_mode =>
      let share := fun f => B64.div (B64.mul totalIncome (parseClamped f)) B64.hundred in
      mkFunds (share (ef funds)) (share (sf funds)) (share (spending funds))
        (share (fun_ funds))
  end.

Definition Funds_nonneg (a : Funds B64.float) : Prop :=
  forall k, B64.le B64.zero (getFund k a) = true.

Lemma parseClamped_id (v : string) :
  B64.le B64.zero (B64.clampNumber v) = true -> parseClamped v = B64.clampNumber v.
Proof.
  unfold parseClamped.
  destruct (B64.clampNumber v) as [[]|[]| |[] m e]; simpl; intro H;
    try discriminate; reflexivity.
Qed.

Lemma share_nonneg (t : B64.float) (v : string) :
  B64.isFinite t = true -> B64.le B64.zero t = true ->
  B64.le B64.zero (B64.clampNumber v) = true ->
  B64.le B64.zero (B64.div (B64.mul t (B64.clampNumber v)) B64.hundred) = true.
Proof.
  intros Hf Ht Hv. apply div_hundred_nonneg.
  apply mul_nonneg; try assumption. apply clampNumber_finite.
Qed.

(** C1, as the code has it.  Under [amount] each output is the parsed field
    (the binary64 value of the text, or 0 when the text is no finite
    number); no clamp at zero is applied, so an output compares below 0
    exactly when its field parses to a negative number.  Under [percent]
    each output is [totalIncome * parsed / 100], each operation rounded.
    When the income is finite and not negative and the four parsed fields
    are not negative, the outputs are not negative and are the clamped
    values of the specification.  With an income of [Infinity], which two
    amounts of 1e308 give, a field that reads as 0 has the output
    [NaN]. *)
Theorem fundsAsAmount_parsed_fields
  (funds : Funds string) (mode : Mode) (totalIncome : B64.float) :
  (mode = amount_mode ->
   B64.fundsAsAmount funds mode totalIncome
   = mkFunds (B64.clampNumber (ef funds)) (B64.clampNumber (sf funds))
       (B64.clampNumber (spending funds)) (B64.clampNumber (fun_ funds))
   /\ forall k,
        B64.gt B64.zero (getFund k (B64.fundsAsAmount funds mode totalIncome))
        = B64.gt B64.zero (B64.clampNumber (getFund k funds)))
  /\ (mode = percent_mode ->
      forall k,
        getFund k (B64.fundsAsAmount funds mode totalIncome)
        = B64.div (B64.mul totalIncome (B64.clampNumber (getFund k funds)))
            B64.hundred)
  /\ (B64.isFinite totalIncome = true -> B64.le B64.zero totalIncome = true ->
      (forall k, B64.le B64.zero (B64.clampNumber (getFund k funds)) = true) ->
      Funds_nonneg (B64.fundsAsAmount funds mode totalIncome)
      /\ B64.fundsAsAmount funds mode totalIncome
         = convertAllocations funds mode totalIncome)
  /\ (B64.fundsAsAmount (mkFunds "12.5" "0.1" "" "abc") percent_mode
        (B64.Number "1000")
      = mkFunds (B64.Number "125") (B64.Number "1") B64.zero B64.zero
      /\ ef (B64.fundsAsAmount (mkFunds "" "" "" "") percent_mode
               (B64.totalIncome [ mkSource "bpi" "BPI" true "1e308";
                                  mkSource "gcash" "GCash" true "1e308" ]))
         = S754_nan).
Proof.
  split; [|split; [|split]].
  - intros ->. split; [reflexivity|]. intros []; reflexivity.
  - intros ->. intros []; reflexivity.
  - intros Hf Ht Hk.
    pose proof (Hk key_ef) as He. pose proof (Hk key_sf) as Hs.
    pose proof (Hk key_spending) as Hp. pose proof (Hk key_fun) as Hu.
    simpl in He, Hs, Hp, Hu.
    destruct mode; unfold B64.fundsAsAmount, convertAllocations; simpl.
    + split.
      * intros []; simpl; assumption.
      * now rewrite !parseClamped_id.
    + split.
      * intros []; simpl; now apply share_nonneg.
      * now rewrite !parseClamped_id.
  - split; vm_compute; reflexivity.
Qed.

Lemma fundsAsAmount_parsed_fields_witness :
  let f := mkFunds "30" "20.5" "" "0.1" in
  Funds_nonneg (B64.fundsAsAmount f percent_mode (B64.Number "1000.25"))
  /\ B64.fundsAsAmount f percent_mode (B64.Number "1000.25")
     = convertAllocations f percent_mode (B64.Number "1000.25").
Proof.
  apply (proj1 (proj2 (proj2 (fundsAsAmount_parsed_fields
           (mkFunds "30" "20.5" "" "0.1") percent_mode (B64.Number "1000.25"))))).
  - reflexivity.
  - reflexivity.
  - intros []; reflexivity.
Defined.

(** C1 as stated fails: a field that parses to a negative number is passed
    on as it is, so the output is negative and is not the clamped value. *)
Lemma fundsAsAmount_negative_field :
  let f := mkFunds "-5" "" "" "" in
  ~ (Funds_nonneg (B64.fundsAsAmount f amount_mode (B64.Number "1000"))
     /\ B64.fundsAsAmount f amount_mode (B64.Number "1000")
        = convertAllocations f amount_mode (B64.Number "1000")).
Proof.
  intros f [H _]. specialize (H key_ef). vm_compute in H. discriminate.
Qed.

(** ** Stage 2 *)

Lemma step2Errors_percent_rounded (funds : Funds string) (a t : B64.float) :
  B64.step2Errors true percent_mode funds a t
  = if B64.gt (B64.pctTotal funds) B64.hundredAndTolerance
    then [PercentTotalExceeds100] else [].
Proof.
  unfold B64.step2Errors. simpl.
  destruct (B64.gt (B64.pctTotal funds) B64.hundredAndTolerance); reflexivity.
Qed.

Lemma step2Errors_amount_rounded (funds : Funds string) (a t : B64.float) :
  B64.step2Errors true amount_mode funds a t
  = if B64.gt a (B64.add t B64.tolerance) then [AllocationExceedsIncome] else [].
Proof.
  unfold B64.step2Errors. simpl.
  destruct (B64.gt a (B64.add t B64.tolerance)); reflexivity.
Qed.

(** C5.  With stage 1 valid and the mode [percent], the error
    [PercentTotalExceeds100] is in the list exactly when the sum of the four
    parsed fields, added in binary64 from left to right, exceeds
    [100 + 0.0001], which is the literal 100.0001; it is then the only
    error, and with the sum within the bound there is none, whatever the
    single fields are: 150 and -60 pass.  The fields 30, 30, 30, 20 on an
    income of 1000 give the error and disable DONE.  The sum is the rounded
    one: 41.5254, 31.1057, 19.454 and 7.915 add up to 100.00010000000002
    and give the error. *)
Theorem step2Errors_percent_total :
  (forall (funds : Funds string) (allocatedTotal totalIncome : B64.float),
      In PercentTotalExceeds100
        (B64.step2Errors true percent_mode funds allocatedTotal totalIncome)
      <-> B64.gt
            (B64.add
               (B64.add
                  (B64.add (B64.clampNumber (ef funds)) (B64.clampNumber (sf funds)))
                  (B64.clampNumber (spending funds)))
               (B64.clampNumber (fun_ funds)))
            (B64.add B64.hundred B64.tolerance) = true)
  /\ (forall (funds : Funds string) (allocatedTotal totalIncome : B64.float),
         B64.gt (B64.pctTotal funds) (B64.add B64.hundred B64.tolerance) = false ->
         B64.step2Errors true percent_mode funds allocatedTotal totalIncome = [])
  /\ B64.add B64.hundred B64.tolerance = B64.Number "100.0001"
  /\ (let st := scenarioState percent_mode (mkFunds "150" "-60" "" "") in
      B64.gt (B64.clampNumber (ef (funds st))) B64.hundred = true
      /\ B64.Render.step2Errors st = [])
  /\ (let st := scenarioState percent_mode (mkFunds "30" "30" "30" "20") in
      B64.Render.step2Errors st = [PercentTotalExceeds100]
      /\ B64.Render.canDone st = false)
  /\ (let st := scenarioState percent_mode
                  (mkFunds "41.5254" "31.1057" "19.454" "7.915") in
      B64.pctTotal (funds st) = B64.Number "100.00010000000002"
      /\ B64.Render.step2Errors st = [PercentTotalExceeds100]
      /\ B64.Render.canDone st = false).
Proof.
  assert (Hb : B64.add B64.hundred B64.tolerance = B64.hundredAndTolerance)
    by (vm_compute; reflexivity).
  split; [|split; [|split; [|split; [|split]]]].
  - intros funds a t. rewrite step2Errors_percent_rounded, Hb.
    fold (B64.pctTotal funds).
    destruct (B64.gt (B64.pctTotal funds) B64.hundredAndTolerance).
    + split; [reflexivity | intros _; now left].
    + split; [intros [] | discriminate].
  - intros funds a t H. rewrite step2Errors_percent_rounded. rewrite Hb in H.
    now rewrite H.
  - vm_compute. reflexivity.
  - split; vm_compute; reflexivity.
  - split; vm_compute; reflexivity.
  - repeat split; vm_compute; reflexivity.
Qed.

Lemma step2Errors_percent_total_witness :
  B64.step2Errors true percent_mode (mkFunds "40" "30" "20" "10")
    (B64.Number "1000") (B64.Number "1000") = [].
Proof.
  apply (proj1 (proj2 step2Errors_percent_total)).
  vm_compute. reflexivity.
Defined.

Lemma step1Valid_rewrite (st : State) :
  B64.Render.step1Valid st = true ->
  B64.Render.step2Errors st
  = B64.step2Errors true (mode st) (funds st) (B64.Render.allocatedTotal st)
      (B64.Render.totalIncome st).
Proof.
  intro H. unfold B64.Render.step2Errors. now rewrite H.
Qed.

(** X1.  With a positive total income and the mode [amount], DONE is enabled
    exactly when the sum of the four parsed fields, added in binary64 from
    left to right, is not above the rounded sum of the income and 0.0001;
    otherwise the only error is [AllocationExceedsIncome].  That is not a
    test of the remaining amount shown: with an income of 100.3 and the
    fields 0.1, 0.1, 100.1 and 0.0001 DONE is enabled and the remaining
    amount is -0.00010000000000331966, below -0.0001. *)
Theorem amount_mode_done_binary64 (st : State) :
  mode st = amount_mode ->
  B64.Render.step1Valid st = true ->
  (B64.Render.canDone st = true
   <-> B64.gt
         (B64.add
            (B64.add
               (B64.add (B64.clampNumber (ef (funds st)))
                  (B64.clampNumber (sf (funds st))))
               (B64.clampNumber (spending (funds st))))
            (B64.clampNumber (fun_ (funds st))))
         (B64.add (B64.Render.totalIncome st) B64.tolerance) = false)
  /\ (B64.Render.canDone st = false ->
      B64.Render.step2Errors st = [AllocationExceedsIncome])
  /\ (let st' := {| sources := [ mkSource "bpi" "BPI" true "100.3" ];
                    mode := amount_mode;
                    funds := mkFunds "0.1" "0.1" "100.1" "0.0001";
                    toast := None; doneSummary := None |} in
      B64.Render.canDone st' = true
      /\ B64.Render.remaining st' = B64.Number "-0.00010000000000331966"
      /\ B64.gt (B64.Number "-0.0001") (B64.Render.remaining st') = true).
Proof.
  intros Hm Hv.
  assert (Ha : B64.Render.allocatedTotal st
               = B64.add
                   (B64.add
                      (B64.add (B64.clampNumber (ef (funds st)))
                         (B64.clampNumber (sf (funds st))))
                      (B64.clampNumber (spending (funds st))))
                   (B64.clampNumber (fun_ (funds st)))).
  { unfold B64.Render.allocatedTotal, B64.Render.fundsAsAmount, B64.fundsAsAmount.
    rewrite Hm. reflexivity. }
  unfold B64.Render.canDone.
  rewrite (step1Valid_rewrite st Hv), Hm, step2Errors_amount_rounded, Ha.
  destruct (B64.gt _ (B64.add (B64.Render.totalIncome st) B64.tolerance)).
  - split; [split; discriminate|]. split; [reflexivity|].
    repeat split; vm_compute; reflexivity.
  - split; [split; reflexivity|]. split; [discriminate|].
    repeat split; vm_compute; reflexivity.
Qed.

Lemma amount_mode_done_binary64_witness :
  let st := scenarioState amount_mode (mkFunds "600" "200" "400" "50") in
  B64.Render.step2Errors st = [AllocationExceedsIncome].
Proof.
  intro st.
  apply (proj1 (proj2 (amount_mode_done_binary64 st eq_refl
                         ltac:(vm_compute; reflexivity)))).
  vm_compute. reflexivity.
Defined.

(** X3.  With a positive total income and the mode [percent], whether DONE
    is enabled depends on the four fund texts alone: it is, exactly when
    their parsed values add up, in binary64, to at most 100.0001, whatever
    the income and the converted amounts are.  So on an income of 1000000
    the field 100.0001 passes although the allocated total is 1000001, and
    on an income of 1000 the fields 41.5254, 31.1057, 19.454 and 7.915 are
    refused although the allocated total, 1000.0009999999999, is not above
    the income times 1.000001. *)
Theorem percent_mode_done_binary64 (st : State) :
  mode st = percent_mode ->
  B64.Render.step1Valid st = true ->
  B64.Render.canDone st
  = negb (B64.gt (B64.pctTotal (funds st)) (B64.Number "100.0001"))
  /\ (forall st', mode st' = percent_mode -> B64.Render.step1Valid st' = true ->
                  funds st' = funds st ->
                  B64.Render.canDone st' = B64.Render.canDone st)
  /\ (let big := {| sources := [ mkSource "bpi" "BPI" true "1000000" ];
                    mode := percent_mode;
                    funds := mkFunds "100.0001" "" "" "";
                    toast := None; doneSummary := None |} in
      B64.Render.canDone big = true
      /\ B64.Render.allocatedTotal big = B64.Number "1000001"
      /\ B64.gt (B64.Render.allocatedTotal big)
           (B64.add (B64.Render.totalIncome big) B64.tolerance) = true)
  /\ (let edge := scenarioState percent_mode
                    (mkFunds "41.5254" "31.1057" "19.454" "7.915") in
      B64.Render.canDone edge = false
      /\ B64.Render.allocatedTotal edge = B64.Number "1000.0009999999999"
      /\ B64.le (B64.Render.allocatedTotal edge)
           (B64.mul (B64.Render.totalIncome edge) (B64.Number "1.000001")) = true).
Proof.
  intros Hm Hv.
  assert (Hc : forall s, mode s = percent_mode -> B64.Render.step1Valid s = true ->
                 B64.Render.canDone s
                 = negb (B64.gt (B64.pctTotal (funds s)) B64.hundredAndTolerance)).
  { intros s Hs Hvs. unfold B64.Render.canDone.
    rewrite (step1Valid_rewrite s Hvs), Hs, step2Errors_percent_rounded.
    destruct (B64.gt (B64.pctTotal (funds s)) B64.hundredAndTolerance);
      reflexivity. }
  split; [|split; [|split]].
  - rewrite (Hc st Hm Hv). reflexivity.
  - intros st' Hm' Hv' Hf. now rewrite (Hc st Hm Hv), (Hc st' Hm' Hv'), Hf.
  - repeat split; vm_compute; reflexivity.
  - repeat split; vm_compute; reflexivity.
Qed.

Lemma percent_mode_done_binary64_witness :
  let st := scenarioState percent_mode (mkFunds "40" "30" "20" "10.0001") in
  B64.Render.canDone st = true.
Proof.
  intro st.
  rewrite (proj1 (percent_mode_done_binary64 st eq_refl
                    ltac:(vm_compute; reflexivity))).
  vm_compute. reflexivity.
Defined.

End B64Facts.

(** * Further properties of the page *)

(** ** Stage 2 under [amount] *)

Lemma step2Errors_amount (funds : Funds string) (a t : Q) :
  step2Errors true amount_mode funds a t
  = if gtb a (t + 0.0001) then [AllocationExceedsIncome] else [].
Proof.
  unfold step2Errors. simpl.
  destruct (gtb a (t + 0.0001)); reflexivity.
Qed.

Lemma canDone_nil_iff (errs : list string) : canDone errs = true <-> errs = [].
Proof.
  unfold canDone. destruct errs; simpl; split; congruence.
Qed.

(** X2.  Stage 2 never reports more than one error: the lock message when
    stage 1 is invalid, otherwise at most the one check of the current
    mode.  The percent total is not checked under [amount], nor the
    allocated total under [percent]. *)
Theorem step2Errors_at_most_one
  (valid : bool) (m : Mode) (funds : Funds string) (allocatedTotal totalIncome : Q) :
  let errs := step2Errors valid m funds allocatedTotal totalIncome in
  (List.length errs <= 1)%nat
  /\ (forall e, In e errs ->
        (valid = false /\ e = Stage2Locked)
        \/ (valid = true /\ m = amount_mode /\ e = AllocationExceedsIncome)
        \/ (valid = true /\ m = percent_mode /\ e = PercentTotalExceeds100)).
Proof.
  destruct valid.
  - destruct m.
    + rewrite step2Errors_amount.
      destruct (gtb allocatedTotal (totalIncome + 0.0001)); simpl; split;
        try lia; intros e [<-|[]]; right; left; repeat split.
    + rewrite step2Errors_percent.
      destruct (gtb (pctTotal funds) 100.0001); simpl; split;
        try lia; intros e [<-|[]]; right; right; repeat split.
  - rewrite step2Errors_locked. simpl. split; [lia|].
    intros e [<-|[]]. left. split; reflexivity.
Qed.

Lemma step2Errors_at_most_one_witness :
  (false = false /\ Stage2Locked = Stage2Locked)
  \/ (false = true /\ percent_mode = amount_mode
      /\ Stage2Locked = AllocationExceedsIncome)
  \/ (false = true /\ percent_mode = percent_mode
      /\ Stage2Locked = PercentTotalExceeds100).
Proof.
  apply (proj2 (step2Errors_at_most_one false percent_mode
                  (mkFunds "60" "60" "" "") 0 0) Stage2Locked).
  left. reflexivity.
Defined.

(** ** DONE and Save when they go through *)




(** X5.  When stage 1 has no error, [saveStep1Local] clears the snapshot and
    changes nothing else but the toast; the total income is then
    positive. *)
Theorem saveStep1Local_clears_snapshot (st : State) :
  Render.step1Errors st = [] ->
  doneSummary (saveStep1Local st) = None
  /\ sources (saveStep1Local st) = sources st
  /\ mode (saveStep1Local st) = mode st
  /\ funds (saveStep1Local st) = funds st
  /\ toast (saveStep1Local st)
     = Some (mkToast success "Step 1 saved (local only) ✅")
  /\ 0 < Render.totalIncome st.
Proof.
  intro H. unfold saveStep1Local. rewrite H. simpl.
  repeat split.
  unfold Render.step1Errors in H. unfold Render.totalIncome.
  rewrite step1Errors_shape in H. apply totalIncome_pos_iff.
  destruct (existsb Spec.counts (sources st)); [reflexivity | discriminate].
Qed.

Lemma saveStep1Local_clears_snapshot_witness :
  let st := {| sources := scenarioSources; mode := amount_mode;
               funds := mkFunds "1" "2" "3" "4"; toast := None;
               doneSummary := Some (mkFunds 1 2 3 4) |} in
  doneSummary (saveStep1Local st) = None.
Proof.
  intro st.
  apply (proj1 (saveStep1Local_clears_snapshot st ltac:(vm_compute; reflexivity))).
Defined.

(** ** The snapshot and the edits *)

Lemma removeSource_cases (id' : string) (c : bool) (st : State) :
  removeSource id' c st = st
  \/ (c = true
      /\ removeSource id' c st
         = showToast success
             ("Removed source: "
              ++ match find (fun s => (id s =? id')%string) (sources st) with
                 | Some src => name src
                 | None => ""
                 end)
             (setSources (filter (fun s => negb (id s =? id')%string)) st)).
Proof.
  unfold removeSource.
  destruct (find (fun s => (id s =? id')%string) (sources st)); [|now left].
  destruct c; simpl; [right; split; reflexivity | now left].
Qed.

Lemma addSource_cases (p : option string) (now : N) (st : State) :
  addSource p now st = st
  \/ exists name',
       p = Some name' /\ name' <> ""
       /\ addSource p now st
          = showToast success ("Added source: " ++ name')
              (setSources
                 (fun prev => (prev ++ [mkSource (newSourceId name' now) name' false ""])%list)
                 st).
Proof.
  unfold addSource. destruct p as [name'|]; [|now left].
  destruct (String.eqb_spec name' ""); [now left|].
  right. exists name'. repeat split; assumption.
Qed.

Lemma edit_keeps_doneSummary (e : Event) (st : State) :
  isEdit e = true -> doneSummary (handle e st) = doneSummary st.
Proof.
  destruct e; simpl; try discriminate; intros _; try reflexivity.
  - destruct (addSource_cases promptResult now st) as [->|[n [_ [_ ->]]]];
      reflexivity.
  - destruct (removeSource_cases (id s) confirmResult st) as [->|[_ ->]];
      reflexivity.
Qed.

(** X6.  The snapshot taken by DONE is a copy: adding, removing, toggling
    and editing sources, editing fund fields and switching the mode, in any
    number and order, leave it as it was, while the amounts the page
    computes follow the edits.  Only Save, DONE and Reset write it. *)
Theorem snapshot_survives_edits (st : State) (es : list Event) :
  forallb isEdit es = true ->
  doneSummary (fold_left (fun s e => handle e s) es st) = doneSummary st.
Proof.
  revert st. induction es as [|e es IH]; intros st H; simpl in *.
  - reflexivity.
  - apply andb_true_iff in H. destruct H as [He Hes].
    rewrite (IH _ Hes). now apply edit_keeps_doneSummary.
Qed.

Lemma snapshot_survives_edits_witness :
  let st := doneStep2Local (scenarioState amount_mode (mkFunds "300" "200" "400" "50")) in
  let st' := fold_left (fun s e => handle e s)
               [EditFund key_ef "900"; SetMode percent_mode;
                ToggleReceived (mkSource "bpi" "BPI" true "1000") false] st in
  doneSummary st' = doneSummary st
  /\ ef (Render.fundsAsAmount st') == 0.
Proof.
  intros st st'. split.
  - apply (snapshot_survives_edits st). reflexivity.
  - vm_compute. reflexivity.
Defined.

(** ** Adding and removing sources *)

Lemma totalIncome_app (l1 l2 : list Source) :
  totalIncome (l1 ++ l2) == totalIncome l1 + totalIncome l2.
Proof.
  rewrite !totalIncome_sum. unfold Spec.computeTotalIncome.
  rewrite filter_app, map_app.
  induction (map (fun s => clampNumber (amount s)) (filter Spec.counts l1))
    as [|q l IH]; simpl.
  - ring.
  - rewrite IH. ring.
Qed.

Lemma totalIncome_cons (s : Source) (l : list Source) :
  totalIncome (s :: l)
  == (if Spec.counts s then clampNumber (amount s) else 0) + totalIncome l.
Proof.
  rewrite !totalIncome_sum. unfold Spec.computeTotalIncome. simpl.
  destruct (Spec.counts s); simpl; ring.
Qed.

Lemma step1Errors_snoc_off (l : list Source) (s : Source) :
  received s = false ->
  step1Errors (l ++ [s]) = step1Errors l /\ totalIncome (l ++ [s]) = totalIncome l.
Proof.
  intro H. split.
  - rewrite !step1Errors_shape, existsb_app, filter_app. simpl.
    unfold Spec.counts at 2, nonPositive at 2. rewrite H. simpl.
    now rewrite orb_false_r, app_nil_r.
  - unfold totalIncome. rewrite fold_left_app. simpl. now rewrite H.
Qed.

(** X7.  [addSource] does nothing at all when the prompt is cancelled or
    left empty.  Otherwise it appends one source, not received and with no
    amount, after the existing ones, and the total income, the errors of
    both stages and the converted amounts stay what they were. *)
Theorem addSource_appends_inert_source
  (promptResult : option string) (now : N) (st : State) :
  let st' := addSource promptResult now st in
  ((promptResult = None \/ promptResult = Some "") -> st' = st)
  /\ (forall name',
        promptResult = Some name' -> name' <> "" ->
        sources st'
        = (sources st ++ [mkSource (newSourceId name' now) name' false ""])%list)
  /\ Render.totalIncome st' = Render.totalIncome st
  /\ Render.step1Errors st' = Render.step1Errors st
  /\ Render.fundsAsAmount st' = Render.fundsAsAmount st
  /\ Render.step2Errors st' = Render.step2Errors st.
Proof.
  intro st'. subst st'.
  split; [|split].
  - intros [->| ->]; reflexivity.
  - intros name' -> Hn. now apply addSource_sources.
  - destruct (addSource_cases promptResult now st) as [->|[n [_ [_ ->]]]].
    + repeat split.
    + pose proof (step1Errors_snoc_off (sources st)
                    (mkSource (newSourceId n now) n false "") eq_refl) as [He Ht].
      assert (HT : Render.totalIncome
                     (showToast success ("Added source: " ++ n)
                        (setSources
                           (fun prev =>
                              (prev ++ [mkSource (newSourceId n now) n false ""])%list)
                           st))
                   = Render.totalIncome st) by exact Ht.
      unfold Render.step2Errors, Render.allocatedTotal, Render.step1Valid,
        Render.fundsAsAmount, Render.step1Errors.
      rewrite HT. simpl. rewrite He. repeat split.
Qed.

Lemma addSource_appends_inert_source_witness :
  sources (addSource (Some "Union Bank") 1700000000000 initialState)
  = [ mkSource "bpi" "BPI" false ""; mkSource "gcash" "GCash" false "";
      mkSource "union-bank-1700000000000" "Union Bank" false "" ].
Proof.
  apply (proj1 (proj2 (addSource_appends_inert_source
                         (Some "Union Bank") 1700000000000 initialState))
           "Union Bank" eq_refl).
  discriminate.
Defined.

Lemma find_none_filter (id' : string) (l : list Source) :
  find (fun s => (id s =? id')%string) l = None ->
  filter (fun s => negb (id s =? id')%string) l = l.
Proof.
  induction l as [|a l IH]; simpl; [reflexivity|].
  destruct (id a =? id')%string; [discriminate|].
  intro H. simpl. now rewrite IH.
Qed.

Lemma totalIncome_filter_le (p : Source -> bool) (l : list Source) :
  totalIncome (filter p l) <= totalIncome l.
Proof.
  induction l as [|a l IH]; simpl.
  - apply Qle_refl.
  - pose proof (totalIncome_cons a l) as Ha.
    assert (H0 : 0 <= (if Spec.counts a then clampNumber (amount a) else 0)).
    { destruct (Spec.counts a) eqn:E; [|apply Qle_refl].
      apply andb_true_iff in E. destruct E as [_ E].
      apply gtb_true_iff in E. lra. }
    destruct (p a).
    + pose proof (totalIncome_cons a (filter p l)) as Hb. lra.
    + lra.
Qed.

(** X8.  [removeSource] changes nothing when the id is not on the page or
    the user declines.  When confirmed, exactly the sources with that id go
    and the others keep their order, and the total income does not grow. *)
Theorem removeSource_removes_by_id (id' : string) (confirmResult : bool) (st : State) :
  let st' := removeSource id' confirmResult st in
  ((confirmResult = false \/ ~ In id' (map id (sources st))) -> st' = st)
  /\ (confirmResult = true ->
      sources st' = filter (fun s => negb (id s =? id')%string) (sources st)
      /\ ~ In id' (map id (sources st')))
  /\ Render.totalIncome st' <= Render.totalIncome st
  /\ funds st' = funds st /\ mode st' = mode st.
Proof.
  intro st'. subst st'. unfold removeSource.
  destruct (find (fun s => (id s =? id')%string) (sources st)) as [src|] eqn:F.
  - apply find_some in F. destruct F as [Hin Hid].
    apply String.eqb_eq in Hid.
    split; [|split; [|split]].
    + intros [->|Hn]; [reflexivity|].
      exfalso. apply Hn. rewrite <- Hid. now apply in_map.
    + intros ->. simpl. split; [reflexivity|].
      intro H. apply in_map_iff in H. destruct H as [x [Hx Hf]].
      apply filter_In in Hf. destruct Hf as [_ Hf].
      rewrite Hx, String.eqb_refl in Hf. discriminate.
    + destruct confirmResult; simpl.
      * apply totalIncome_filter_le.
      * apply Qle_refl.
    + destruct confirmResult; split; reflexivity.
  - split; [|split; [|split]].
    + reflexivity.
    + intros _. split.
      * symmetry. now apply find_none_filter.
      * intro H. apply in_map_iff in H. destruct H as [x [Hx Hin]].
        apply (find_none _ _ F) in Hin. simpl in Hin.
        rewrite Hx, String.eqb_refl in Hin. discriminate.
    + apply Qle_refl.
    + split; reflexivity.
Qed.

Lemma removeSource_removes_by_id_witness :
  sources (removeSource "bpi" true initialState)
  = [mkSource "gcash" "GCash" false ""].
Proof.
  apply (proj1 (proj1 (proj2 (removeSource_removes_by_id "bpi" true initialState))
                  eq_refl)).
Defined.

(** ** Updating a source *)

Lemma updateSource_ids (id' : string) (patch : Patch.t) (st : State) :
  map id (sources (updateSource id' patch st)) = map id (sources st)
  /\ map name (sources (updateSource id' patch st)) = map name (sources st).
Proof.
  unfold updateSource. simpl. rewrite !map_map. split; apply map_ext;
    intro s; destruct (id s =? id')%string; reflexivity.
Qed.

Lemma State_eta (st : State) :
  {| sources := sources st; mode := mode st; funds := funds st;
     toast := toast st; doneSummary := doneSummary st |} = st.
Proof.
  destruct st. reflexivity.
Qed.

(** X9.  [updateSource] with an id that no source has leaves the state as
    it is; with any id and patch it keeps the ids, the names and the order
    of the sources, and it touches nothing but the sources. *)
Theorem updateSource_unknown_id (id' : string) (patch : Patch.t) (st : State) :
  (~ In id' (map id (sources st)) -> updateSource id' patch st = st)
  /\ map id (sources (updateSource id' patch st)) = map id (sources st)
  /\ map name (sources (updateSource id' patch st)) = map name (sources st)
  /\ funds (updateSource id' patch st) = funds st
  /\ mode (updateSource id' patch st) = mode st
  /\ doneSummary (updateSource id' patch st) = doneSummary st
  /\ toast (updateSource id' patch st) = toast st.
Proof.
  split; [|pose proof (updateSource_ids id' patch st) as [? ?]; repeat split;
           assumption].
  intro H. unfold updateSource, setSources.
  replace (map (fun s => if (id s =? id')%string then applyPatch s patch else s)
             (sources st)) with (sources st); [apply State_eta|].
  induction (sources st) as [|a l IH]; simpl in *; [reflexivity|].
  destruct (String.eqb_spec (id a) id') as [E|E].
  - exfalso. apply H. now left.
  - f_equal. apply IH. intro Hin. apply H. now right.
Qed.

Lemma updateSource_unknown_id_witness :
  updateSource "maya" (Patch.mk (Some true) (Some "5")) initialState = initialState.
Proof.
  apply (proj1 (updateSource_unknown_id "maya" (Patch.mk (Some true) (Some "5"))
                  initialState)).
  simpl. intuition discriminate.
Defined.

(** ** Editing a fund field *)

Definition FundKey_eqb (a b : FundKey) : bool :=
  match a, b with
  | key_ef, key_ef | key_sf, key_sf | key_spending, key_spending
  | key_fun, key_fun => true
  | _, _ => false
  end.

(** X10.  Editing a fund field stores the text in that field and keeps the
    other three; the sources, the mode and the snapshot are not touched,
    and edits of two different fields can be made in either order. *)
Theorem onFundChange_sets_one_field (k : FundKey) (v : string) (st : State) :
  getFund k (funds (onFundChange k v st)) = v
  /\ (forall k', k' <> k ->
        getFund k' (funds (onFundChange k v st)) = getFund k' (funds st))
  /\ sources (onFundChange k v st) = sources st
  /\ mode (onFundChange k v st) = mode st
  /\ doneSummary (onFundChange k v st) = doneSummary st
  /\ (forall k' v', k' <> k ->
        onFundChange k v (onFundChange k' v' st)
        = onFundChange k' v' (onFundChange k v st)).
Proof.
  repeat split.
  - destruct k; reflexivity.
  - intros k' H. destruct k, k'; try reflexivity; contradiction.
  - intros k' v' H. destruct k, k'; try reflexivity; contradiction.
Qed.

Lemma onFundChange_sets_one_field_witness :
  onFundChange key_sf "20" (onFundChange key_ef "10" initialState)
  = onFundChange key_ef "10" (onFundChange key_sf "20" initialState).
Proof.
  apply (proj2 (proj2 (proj2 (proj2 (proj2
           (onFundChange_sets_one_field key_sf "20" initialState)))))
           key_ef "10").
  discriminate.
Defined.

(** ** After a reset *)

Lemma totalIncome_all_off (l : list Source) :
  Forall (fun s => received s = false) l -> totalIncome l = 0.
Proof.
  unfold totalIncome. generalize 0 as a.
  induction l as [|s l IH]; intros a H; simpl; [reflexivity|].
  inversion H as [|? ? Hs Hl]; subst. rewrite Hs. simpl. now apply IH.
Qed.

Lemma step1Errors_all_off (l : list Source) :
  Forall (fun s => received s = false) l -> step1Errors l = [MissingReceivedIncome].
Proof.
  intro H. rewrite step1Errors_shape.
  replace (existsb Spec.counts l) with false.
  - replace (filter nonPositive l) with (@nil Source); [reflexivity|].
    symmetry. apply filter_nil_iff. intros s Hs.
    rewrite Forall_forall in H. unfold nonPositive. now rewrite (H s Hs).
  - symmetry. apply not_true_is_false. intro E.
    apply existsb_exists in E. destruct E as [s [Hs E]].
    rewrite Forall_forall in H. unfold Spec.counts in E.
    rewrite (H s Hs) in E. discriminate.
Qed.

(** X11.  With no source marked received, whatever the amounts typed, the
    total income is 0, stage 1 reports the one general error and stage 2
    the lock, in both modes and for every fund text. *)
Theorem nothing_received_locks_page (st : State) :
  Forall (fun s => received s = false) (sources st) ->
  Render.totalIncome st = 0
  /\ Render.step1Errors st = [MissingReceivedIncome]
  /\ Render.step2Errors st = [Stage2Locked]
  /\ Render.canDone st = false
  /\ receivedCount (sources st) = 0%nat.
Proof.
  intro H.
  assert (Ht : Render.totalIncome st = 0) by now apply totalIncome_all_off.
  unfold Render.canDone, Render.step2Errors, Render.step1Valid.
  rewrite Ht. repeat split.
  - now apply step1Errors_all_off.
  - unfold receivedCount.
    replace (filter (fun s => received s) (sources st)) with (@nil Source);
      [reflexivity|].
    symmetry. apply filter_nil_iff. now apply Forall_forall.
Qed.

Lemma nothing_received_locks_page_witness :
  let st := {| sources := [ mkSource "bpi" "BPI" false "1000" ];
               mode := percent_mode; funds := mkFunds "10" "" "" "";
               toast := None; doneSummary := None |} in
  Render.step2Errors st = [Stage2Locked].
Proof.
  intro st.
  apply (proj1 (proj2 (proj2 (nothing_received_locks_page st
           ltac:(repeat constructor))))).
Defined.

Lemma resetAll_all_off (st : State) :
  Forall (fun s => received s = false) (sources (resetAll st)).
Proof.
  rewrite resetAll_sources. apply Forall_forall. intros s Hs.
  apply in_map_iff in Hs. destruct Hs as [x [<- _]]. reflexivity.
Qed.

Lemma resetAll_locked (st : State) :
  Render.totalIncome (resetAll st) = 0
  /\ Render.step1Errors (resetAll st) = [MissingReceivedIncome]
  /\ Render.step2Errors (resetAll st) = [Stage2Locked]
  /\ Render.canDone (resetAll st) = false.
Proof.
  pose proof (resetAll_all_off st) as H.
  assert (Ht : Render.totalIncome (resetAll st) = 0)
    by now apply totalIncome_all_off.
  unfold Render.canDone, Render.step2Errors, Render.step1Valid.
  rewrite Ht. repeat split.
  now apply step1Errors_all_off.
Qed.

(** X12.  After a reset, from any state, the page is locked: income 0, all
    four converted amounts 0, the general error in stage 1 and the lock in
    stage 2.  A second reset changes nothing. *)
Theorem resetAll_locks_page (st : State) :
  Render.totalIncome (resetAll st) = 0
  /\ Render.fundsAsAmount (resetAll st) = mkFunds 0 0 0 0
  /\ Render.step1Errors (resetAll st) = [MissingReceivedIncome]
  /\ Render.step2Errors (resetAll st) = [Stage2Locked]
  /\ Render.canDone (resetAll st) = false
  /\ resetAll (resetAll st) = resetAll st.
Proof.
  destruct (resetAll_locked st) as [A [B [C D]]].
  assert (F : Render.fundsAsAmount (resetAll st) = mkFunds 0 0 0 0).
  { unfold Render.fundsAsAmount. rewrite A. reflexivity. }
  repeat split; try assumption.
  - unfold resetAll, showToast, setToast, setDoneSummary, setMode, setFunds,
      setSources. simpl. f_equal. rewrite map_map. reflexivity.
Qed.

(** ** The order of the sources *)

Lemma existsb_perm {A : Type} (p : A -> bool) (l l' : list A) :
  Permutation l l' -> existsb p l = existsb p l'.
Proof.
  induction 1; simpl.
  - reflexivity.
  - now rewrite IHPermutation.
  - destruct (p x), (p y); reflexivity.
  - congruence.
Qed.

(** X13.  Whether the total income is positive and whether stage 1 is free
    of errors do not depend on the order of the sources.  The total itself
    does: the amounts 0.1, 0.2 and 0.3 add up to 0.6000000000000001 in
    this order and to 0.6 in the reverse order. *)
Theorem stage1_order_independent (l l' : list Source) :
  Permutation l l' ->
  (0 < totalIncome l <-> 0 < totalIncome l')
  /\ (step1Errors l = [] <-> step1Errors l' = [])
  /\ (let on := fun a => mkSource "bpi" "BPI" true a in
      B64.totalIncome [on "0.1"; on "0.2"; on "0.3"]
      = B64.Number "0.6000000000000001"
      /\ B64.totalIncome [on "0.3"; on "0.2"; on "0.1"] = B64.Number "0.6"
      /\ B64.Number "0.6000000000000001" <> B64.Number "0.6").
Proof.
  intro H. split; [|split].
  - now rewrite !totalIncome_pos_iff, (existsb_perm Spec.counts l l' H).
  - rewrite !step1Errors_shape, (existsb_perm Spec.counts l l' H).
    assert (Hf : filter nonPositive l = [] <-> filter nonPositive l' = []).
    { rewrite !filter_nil_iff. split; intros Hx x Hin; apply Hx.
      - now apply (Permutation_in _ (Permutation_sym H)).
      - now apply (Permutation_in _ H). }
    destruct (existsb Spec.counts l'); simpl.
    + split; intro E; apply map_eq_nil in E; apply Hf in E; now rewrite E.
    + split; discriminate.
  - repeat split; vm_compute; try reflexivity. discriminate.
Qed.

Lemma stage1_order_independent_witness :
  0 < totalIncome [mkSource "gcash" "GCash" false "500"; mkSource "bpi" "BPI" true "1000"].
Proof.
  apply (proj2 (proj1 (stage1_order_independent _ _
                         (perm_swap (mkSource "gcash" "GCash" false "500")
                            (mkSource "bpi" "BPI" true "1000") [])))).
  vm_compute. reflexivity.
Defined.

(** ** The error list of stage 1 *)

(** X14.  The errors of stage 1 are, in this order: the general error when
    stage 2 is locked (the income is not positive), then one error for each
    card that shows its inline error, in the order of the cards.  A
    received source whose amount does not parse to a positive number has
    its error listed and adds nothing to the income. *)
Theorem step1Errors_follow_cards (l : list Source) :
  step1Errors l
  = ((if step1Valid (totalIncome l) then [] else [MissingReceivedIncome])
     ++ map NonPositiveSourceAmount (filter cardError l))%list
  /\ (forall s, In s l -> received s = true -> clampNumber (amount s) <= 0 ->
        In (name s ++ ": amount must be > 0 if received is ON.") (step1Errors l)
        /\ forall l1 l2, l = (l1 ++ s :: l2)%list ->
                         totalIncome l == totalIncome (l1 ++ l2)).
Proof.
  assert (Hshape : step1Errors l
    = ((if step1Valid (totalIncome l) then [] else [MissingReceivedIncome])
       ++ map NonPositiveSourceAmount (filter cardError l))%list).
  { rewrite step1Errors_shape. f_equal.
    destruct (existsb Spec.counts l) eqn:E.
    - apply totalIncome_pos_iff, gtb_true_iff in E.
      unfold step1Valid. now rewrite E.
    - destruct (step1Valid (totalIncome l)) eqn:V; [|reflexivity].
      apply gtb_true_iff, totalIncome_pos_iff in V. congruence. }
  split; [exact Hshape|].
  intros s Hin Hr Hle. split.
  - rewrite Hshape. apply in_or_app. right.
    apply (in_map NonPositiveSourceAmount). apply filter_In. split; [exact Hin|].
    unfold cardError. rewrite Hr. simpl. now apply Qle_bool_iff.
  - intros l1 l2 ->. rewrite !totalIncome_app, totalIncome_cons.
    replace (Spec.counts s) with false; [ring|].
    symmetry. unfold Spec.counts. rewrite Hr. simpl.
    now apply gtb_false_iff.
Qed.

Lemma step1Errors_follow_cards_witness :
  In "GCash: amount must be > 0 if received is ON."
    (step1Errors [mkSource "bpi" "BPI" true "1000"; mkSource "gcash" "GCash" true "abc"]).
Proof.
  apply (proj2 (step1Errors_follow_cards
                  [mkSource "bpi" "BPI" true "1000";
                   mkSource "gcash" "GCash" true "abc"])
           (mkSource "gcash" "GCash" true "abc")).
  - right. left. reflexivity.
  - reflexivity.
  - vm_compute. discriminate.
Defined.

(** ** Invariants of the reachable states *)

(** Distinct ids, no empty name, and no amount kept on a source that is
    not received. *)
Definition wellFormed (st : State) : Prop :=
  NoDup (map id (sources st))
  /\ Forall (fun s => name s <> "") (sources st)
  /\ Forall (fun s => received s = false -> amount s = "") (sources st).

Lemma NoDup_ids_filter (p : Source -> bool) (l : list Source) :
  NoDup (map id l) -> NoDup (map id (filter p l)).
Proof.
  induction l as [|a l IH]; simpl; intro H; [constructor|].
  inversion H as [|? ? Hnotin Hnd]; subst.
  destruct (p a); simpl; [|now apply IH].
  constructor; [|now apply IH].
  intro Hin. apply Hnotin. apply in_map_iff in Hin.
  destruct Hin as [x [Hx Hf]]. apply filter_In in Hf.
  rewrite <- Hx. apply in_map. tauto.
Qed.

Lemma NoDup_ids_snoc (l : list Source) (x : Source) :
  NoDup (map id l) -> ~ In (id x) (map id l) -> NoDup (map id (l ++ [x])).
Proof.
  intros Hnd Hx. rewrite map_app. simpl.
  induction (map id l) as [|a ids IH]; simpl.
  - constructor; [intros [] | constructor].
  - inversion Hnd as [|? ? Hnotin Hnd']; subst. constructor.
    + intro Hin. apply in_app_or in Hin. destruct Hin as [Hin|[E|[]]].
      * contradiction.
      * apply Hx. now left.
    + apply IH; [assumption|]. intro Hin. apply Hx. now right.
Qed.

Lemma Forall_filter {A : Type} (P : A -> Prop) (p : A -> bool) (l : list A) :
  Forall P l -> Forall P (filter p l).
Proof.
  rewrite !Forall_forall. intros H x Hx. apply filter_In in Hx. apply H. tauto.
Qed.

Lemma wellFormed_handle (st : State) (e : Event) :
  wellFormed st -> enabled st e -> wellFormed (handle e st).
Proof.
  intros [Hnd [Hname Hoff]] Hen. destruct e; simpl in *.
  - (* AddSource *)
    destruct (addSource_cases promptResult now st) as [->|[n [-> [Hn ->]]]];
      [repeat split; assumption|].
    unfold wellFormed. simpl. repeat split.
    + apply NoDup_ids_snoc; [assumption|]. simpl. now apply Hen.
    + apply Forall_app. split; [assumption|]. now repeat constructor.
    + apply Forall_app. split; [assumption|]. now repeat constructor.
  - (* RemoveSource *)
    destruct (removeSource_cases (id s) confirmResult st) as [->|[_ ->]];
      [repeat split; assumption|].
    unfold wellFormed. simpl. repeat split.
    + now apply NoDup_ids_filter.
    + now apply Forall_filter.
    + now apply Forall_filter.
  - (* ToggleReceived *)
    unfold wellFormed, onReceivedChange.
    destruct (updateSource_ids (id s)
                (Patch.mk (Some checked) (Some (if checked then amount s else "")))
                st) as [Hi Hn].
    repeat split.
    + now rewrite Hi.
    + rewrite Forall_forall in *. intros x Hx. simpl in Hx.
      apply in_map_iff in Hx. destruct Hx as [y [<- Hy]].
      destruct (id y =? id s)%string; simpl; now apply Hname.
    + rewrite Forall_forall in *. intros x Hx. simpl in Hx.
      apply in_map_iff in Hx. destruct Hx as [y [<- Hy]].
      destruct (id y =? id s)%string; simpl; [|now apply Hoff].
      intros ->. reflexivity.
  - (* EditAmount *)
    destruct Hen as [Hin Hrec].
    unfold wellFormed, onAmountChange.
    destruct (updateSource_ids (id s) (Patch.mk None (Some value)) st) as [Hi Hn].
    repeat split.
    + now rewrite Hi.
    + rewrite Forall_forall in *. intros x Hx. simpl in Hx.
      apply in_map_iff in Hx. destruct Hx as [y [<- Hy]].
      destruct (id y =? id s)%string; simpl; now apply Hname.
    + rewrite Forall_forall in *. intros x Hx. simpl in Hx.
      apply in_map_iff in Hx. destruct Hx as [y [<- Hy]].
      destruct (String.eqb_spec (id y) (id s)) as [E|E]; simpl; [|now apply Hoff].
      rewrite (id_unique (sources st) y s Hnd Hy Hin E), Hrec. discriminate.
  - repeat split; assumption.
  - repeat split; assumption.
  - unfold saveStep1Local.
    destruct (negb (List.length (Render.step1Errors st) =? 0)%nat);
      repeat split; assumption.
  - unfold doneStep2Local.
    destruct (negb (Render.canDone st)); repeat split; assumption.
  - (* Reset *)
    unfold wellFormed. rewrite resetAll_sources. repeat split.
    + now rewrite map_map.
    + rewrite Forall_forall in *. intros x Hx.
      apply in_map_iff in Hx. destruct Hx as [y [<- Hy]]. simpl. now apply Hname.
    + rewrite Forall_forall. intros x Hx.
      apply in_map_iff in Hx. destruct Hx as [y [<- Hy]]. reflexivity.
  - repeat split; assumption.
Qed.

(** X15.  In every state the page can reach, the sources have distinct ids
    and non-empty names, and a source that is not received has no amount
    text: what was typed is dropped when the source is switched off and
    cannot be typed while it is off. *)
Theorem reachable_wellFormed (st : State) :
  reachable st ->
  NoDup (map id (sources st))
  /\ Forall (fun s => name s <> "") (sources st)
  /\ Forall (fun s => received s = false -> amount s = "") (sources st).
Proof.
  induction 1 as [|st e Hr IH Hen].
  - repeat split.
    + repeat constructor; simpl; intuition discriminate.
    + repeat constructor; discriminate.
    + repeat constructor.
  - now apply wellFormed_handle.
Qed.

Lemma reachable_wellFormed_witness :
  let st := handle (ToggleReceived (mkSource "bpi" "BPI" true "1000") false)
              (handle (EditAmount (mkSource "bpi" "BPI" true "") "1000")
                 (handle (ToggleReceived (mkSource "bpi" "BPI" false "") true)
                    initialState)) in
  Forall (fun s => received s = false -> amount s = "") (sources st).
Proof.
  intro st.
  apply (reachable_wellFormed st).
  repeat (apply reachable_step); try apply reachable_initial; simpl; tauto.
Defined.



(** ** The id of a new source *)

















(** * Properties of the backend *)

Module ServerFacts.
Import Server.

Lemma substring_all (s : string) : substring 0 (String.length s) s = s.
Proof.
  induction s as [|c s IH]; simpl; [reflexivity|]. now rewrite IH.
Qed.

Lemma startsWith_split (p s : string) :
  startsWith s p = true -> s = p ++ slice s (String.length p).
Proof.
  unfold startsWith, slice. revert s.
  induction p as [|a p IH]; intros s H.
  - simpl. rewrite Nat.sub_0_r. symmetry. apply substring_all.
  - destruct s as [|b s]; simpl in H; [discriminate|].
    destruct (ascii_dec a b) as [E|E]; [|discriminate].
    subst b. simpl. f_equal. now apply IH.
Qed.

Lemma startsWith_append (p t : string) : startsWith (p ++ t) p = true.
Proof.
  unfold startsWith. induction p as [|a p IH]; simpl.
  - destruct t; reflexivity.
  - destruct (ascii_dec a a); [assumption | contradiction].
Qed.

Lemma slice_append (p t : string) : slice (p ++ t) (String.length p) = t.
Proof.
  unfold slice. induction p as [|a p IH]; simpl.
  - rewrite Nat.sub_0_r. apply substring_all.
  - exact IH.
Qed.

Definition admitted_request (req : Request) : Request :=
  {| headers := headers req; params := params req;
     user := Some (Principal.mk 1 "admin") |}.

Lemma auth_cases (req : Request) :
  let h := orEmpty (lookup "authorization" (headers req)) in
  auth req
  = if negb (startsWith h "Bearer ") || (h =? "Bearer ")%string
    then respond (json 401 (errorBody "Missing token"))
    else if (h =? "Bearer secret-token")%string
         then next (admitted_request req)
         else respond (json 403 (errorBody "Invalid token")).
Proof.
  intro h. unfold auth. fold h.
  destruct (startsWith h "Bearer ") eqn:P; [|reflexivity].
  pose proof (startsWith_split _ _ P) as Hs.
  set (t := slice h (String.length "Bearer ")) in *.
  assert (Ht : forall k, (t =? k)%string = (h =? "Bearer " ++ k)%string).
  { intro k. rewrite Hs.
    destruct (String.eqb_spec t k) as [E|E].
    - rewrite E. symmetry. apply String.eqb_refl.
    - symmetry. apply String.eqb_neq. intro H. apply E.
      simpl in H. now inversion H. }
  rewrite (Ht ""), (Ht "secret-token"). simpl.
  destruct (h =? "Bearer ")%string; [reflexivity|].
  destruct (h =? "Bearer secret-token")%string; reflexivity.
Qed.

(** X18.  The middleware lets a request through exactly when its
    [authorization] header is the text [Bearer secret-token], and then sets
    [req.user] to the admin and changes nothing else.  A header that is
    missing, does not start with [Bearer ] (capital B, one space) or has
    nothing after it gets 401; any other token gets 403. *)
Theorem auth_decides_on_header (req : Request) :
  let h := orEmpty (lookup "authorization" (headers req)) in
  (h = "Bearer secret-token" <-> auth req = next (admitted_request req))
  /\ (startsWith h "Bearer " = false \/ h = "Bearer "
      <-> auth req = respond (json 401 (errorBody "Missing token")))
  /\ (startsWith h "Bearer " = true /\ h <> "Bearer " /\ h <> "Bearer secret-token"
      <-> auth req = respond (json 403 (errorBody "Invalid token"))).
Proof.
  intro h. rewrite (auth_cases req). fold h.
  destruct (startsWith h "Bearer ") eqn:P; simpl.
  - destruct (String.eqb_spec h "Bearer ") as [E|E].
    + rewrite E. simpl. intuition (try discriminate; try congruence).
    + destruct (String.eqb_spec h "Bearer secret-token") as [K|K];
        intuition (try discriminate; try congruence).
  - intuition (try discriminate; try congruence).
    subst h. rewrite H in P. discriminate.
Qed.

Lemma auth_decides_on_header_witness :
  auth (mkRequest [("authorization", "bearer secret-token")] [] None)
  = respond (json 401 (errorBody "Missing token")).
Proof.
  apply (proj1 (proj1 (proj2 (auth_decides_on_header
           (mkRequest [("authorization", "bearer secret-token")] [] None))))).
  left. reflexivity.
Defined.

(** The number the controller looks up: [Number(req.params.id)]. *)
Definition requestedId (req : Request) : B64.float :=
  match lookup "id" (params req) with
  | Some v => B64.Number v
  | None => S754_nan
  end.

Definition withId (v : string) : Request := mkRequest [] [("id", v)] None.

Definition found (u : User.t) : Outcome :=
  replied (json 200 (JObject [("data", userJson u)])).

Definition notFound : Outcome :=
  replied (json 404 (errorBody "User not found")).

(** X19.  [getUser] answers with the user whose id is the binary64 number
    that [Number] reads from the path parameter, and with 404 when that
    number is the id of no user.  So [1], [0x1], [1e0], [01.0], a 1 behind
    a no-break space and [1.0000000000000000001], which rounds to 1, all
    name user 1 and [2.0] names user 2; [1.5], [1.0000000000000003], [abc],
    [Infinity], [-1] and [0] get 404. *)
Theorem getUser_by_parsed_id :
  (forall req u, In u USERS -> requestedId req = B64.ofQ (User.id u) ->
                 getUser req = found u)
  /\ (forall req, (forall u, In u USERS -> requestedId req <> B64.ofQ (User.id u)) ->
                  getUser req = notFound)
  /\ (let angela := User.mk 1 "Angela" "angela@example.com" in
      let miggy := User.mk 2 "Miggy" "miggy@example.com" in
      let nbsp := String (ascii_of_N 194) (String (ascii_of_N 160) "") in
      getUser (withId "1") = found angela
      /\ getUser (withId "0x1") = found angela
      /\ getUser (withId "1e0") = found angela
      /\ getUser (withId "01.0") = found angela
      /\ getUser (withId (nbsp ++ "1")) = found angela
      /\ getUser (withId "1.0000000000000000001") = found angela
      /\ getUser (withId "2.0") = found miggy
      /\ getUser (withId "1.5") = notFound
      /\ getUser (withId "1.0000000000000003") = notFound
      /\ getUser (withId "abc") = notFound
      /\ getUser (withId "Infinity") = notFound
      /\ getUser (withId "-1") = notFound
      /\ getUser (withId "0") = notFound).
Proof.
  split; [|split].
  - intros req u Hu E. unfold getUser. fold (requestedId req). rewrite E.
    destruct Hu as [<-|[<-|[]]]; reflexivity.
  - intros req H. unfold getUser. fold (requestedId req).
    unfold getUserById. simpl.
    destruct (B64.strictEquals (B64.ofQ 1) (requestedId req)) eqn:E1.
    + exfalso. apply (H (User.mk 1 "Angela" "angela@example.com"));
        [left; reflexivity|].
      simpl. apply (B64Facts.eqb_finite false 4503599627370496 (-52)). exact E1.
    + destruct (B64.strictEquals (B64.ofQ 2) (requestedId req)) eqn:E2;
        [|reflexivity].
      exfalso. apply (H (User.mk 2 "Miggy" "miggy@example.com"));
        [right; left; reflexivity|].
      simpl. apply (B64Facts.eqb_finite false 4503599627370496 (-51)). exact E2.
  - repeat split; vm_compute; reflexivity.
Qed.

Lemma getUser_by_parsed_id_witness :
  getUser (withId "  2 ") = found (User.mk 2 "Miggy" "miggy@example.com")
  /\ getUser (withId "3") = notFound.
Proof.
  split.
  - apply (proj1 getUser_by_parsed_id (withId "  2 ")
             (User.mk 2 "Miggy" "miggy@example.com")).
    + right. left. reflexivity.
    + vm_compute. reflexivity.
  - apply (proj1 (proj2 getUser_by_parsed_id) (withId "3")).
    intros u [<-|[<-|[]]]; vm_compute; discriminate.
Defined.

Lemma chain_cases (controller : Request -> Outcome) (req : Request) :
  let h := orEmpty (lookup "authorization" (headers req)) in
  chain controller req
  = if negb (startsWith h "Bearer ") || (h =? "Bearer ")%string
    then replied (json 401 (errorBody "Missing token"))
    else if (h =? "Bearer secret-token")%string
         then controller (admitted_request req)
         else replied (json 403 (errorBody "Invalid token")).
Proof.
  intro h. unfold chain. rewrite (auth_cases req). fold h.
  destruct (negb (startsWith h "Bearer ") || (h =? "Bearer ")%string);
    [reflexivity|].
  destruct (h =? "Bearer secret-token")%string; reflexivity.
Qed.

(** X20.  On both user routes a 200 answer is given only to a request whose
    [authorization] header is [Bearer secret-token]; without it the answer
    is the same 401 or 403 on either route, whatever the path parameter.
    With it, [GET /users] greets the admin and lists both users, and no
    request makes [listUsers] fail on a missing [req.user]. *)
Theorem user_routes_need_token (req : Request) :
  let h := orEmpty (lookup "authorization" (headers req)) in
  (forall body, usersRoute req = replied (json 200 body) ->
                h = "Bearer secret-token")
  /\ (forall body, userRoute req = replied (json 200 body) ->
                   h = "Bearer secret-token")
  /\ (h <> "Bearer secret-token" ->
      usersRoute req = userRoute req
      /\ (usersRoute req = replied (json 401 (errorBody "Missing token"))
          \/ usersRoute req = replied (json 403 (errorBody "Invalid token"))))
  /\ (h = "Bearer secret-token" ->
      usersRoute req
      = replied
          (json 200
             (JObject
                [ ("message", JString "Hello admin, here are the users");
                  ("data", JArray (map userJson USERS)) ])))
  /\ usersRoute req <> threw /\ userRoute req <> threw.
Proof.
  intro h. unfold usersRoute, userRoute.
  rewrite !chain_cases. fold h.
  destruct (negb (startsWith h "Bearer ") || (h =? "Bearer ")%string) eqn:A.
  - repeat split; try discriminate.
    + now left.
    + intros ->. discriminate.
  - destruct (String.eqb_spec h "Bearer secret-token") as [K|K].
    + repeat split; intros; try exact K; try discriminate; try contradiction;
        try reflexivity.
      unfold getUser.
      match goal with |- context [getUserById ?x] => destruct (getUserById x) end;
        discriminate.
    + repeat split; intros; try discriminate; try contradiction.
      now right.
Qed.

Lemma user_routes_need_token_witness :
  usersRoute (mkRequest [("authorization", "Bearer secret-token")] [] None)
  = replied
      (json 200
         (JObject
            [ ("message", JString "Hello admin, here are the users");
              ("data", JArray (map userJson USERS)) ])).
Proof.
  apply (proj1 (proj2 (proj2 (proj2 (user_routes_need_token
           (mkRequest [("authorization", "Bearer secret-token")] [] None)))))).
  reflexivity.
Defined.

End ServerFacts.

(** * Properties of the Google controller *)

Module GoogleFacts.
Import Server Google.

Definition complete (env : Env) : bool :=
  present (GOOGLE_CLIENT_ID env) && present (GOOGLE_CLIENT_SECRET env)
  && present (GOOGLE_REDIRECT_URI env).

Section Facts.

Variables Client Tokens : Type.
Variable OAuth2 : string -> string -> string -> Client.
Variable generateAuthUrl : Client -> AuthUrlOptions -> Result string.
Variable getToken : Client -> Json -> Result Tokens.
Variable setCredentials : Client -> Tokens -> Client.
Variable createSpreadsheet : Client -> Json -> Result string.
Variable stringify : Tokens -> string.
Variable parse : string -> Result Tokens.

Local Abbreviation client := (getOAuth2Client OAuth2).
Local Abbreviation redirectTo := (redirectToGoogle OAuth2 generateAuthUrl).
Local Abbreviation callback :=
  (googleCallback OAuth2 getToken setCredentials createSpreadsheet stringify).
Local Abbreviation createFromStored :=
  (createSpreadsheetFromStoredTokens OAuth2 setCredentials createSpreadsheet parse).

Lemma client_incomplete (env : Env) :
  complete env = false -> client env = thrown.
Proof.
  unfold complete, getOAuth2Client. intro H.
  destruct (present (GOOGLE_CLIENT_ID env)),
    (present (GOOGLE_CLIENT_SECRET env)),
    (present (GOOGLE_REDIRECT_URI env)); try discriminate; reflexivity.
Qed.

Lemma client_complete (env : Env) :
  complete env = true ->
  exists a b c,
    GOOGLE_CLIENT_ID env = Some a /\ GOOGLE_CLIENT_SECRET env = Some b
    /\ GOOGLE_REDIRECT_URI env = Some c /\ client env = ok (OAuth2 a b c).
Proof.
  unfold complete, getOAuth2Client. intro H.
  destruct (GOOGLE_CLIENT_ID env) as [a|]; [|discriminate].
  destruct (GOOGLE_CLIENT_SECRET env) as [b|];
    [|rewrite andb_false_r in H; discriminate].
  destruct (GOOGLE_REDIRECT_URI env) as [c|];
    [|rewrite andb_false_r in H; discriminate].
  exists a, b, c.
  apply andb_true_iff in H. destruct H as [H Hc].
  apply andb_true_iff in H. destruct H as [Ha Hb].
  rewrite Ha, Hb, Hc. repeat split.
Qed.

(** X21.  [redirectToGoogle] answers 500 whenever one of the three
    environment variables is missing or empty, whatever the library would
    do; with all three set it redirects to the URL the library generates
    for offline access, the two scopes and a forced consent, and answers
    the same 500 when the library throws.  It never answers anything
    else. *)
Theorem redirectToGoogle_needs_env (env : Env) :
  (complete env = false ->
   redirectTo env = json 500 (errorBody "Failed to generate auth URL"))
  /\ (forall a b c,
        env = mkEnv (Some a) (Some b) (Some c) -> complete env = true ->
        redirectTo env
        = match generateAuthUrl (OAuth2 a b c)
                  (mkAuthUrlOptions "offline" SCOPES "consent") with
          | ok url => redirect url
          | thrown => json 500 (errorBody "Failed to generate auth URL")
          end)
  /\ (redirectTo env = json 500 (errorBody "Failed to generate auth URL")
      \/ exists url, redirectTo env = redirect url).
Proof.
  split; [|split].
  - intro H. unfold redirectToGoogle. now rewrite (client_incomplete env H).
  - intros a b c -> H. unfold redirectToGoogle.
    destruct (client_complete _ H) as [a' [b' [c' [Ea [Eb [Ec ->]]]]]].
    simpl in Ea, Eb, Ec. inversion Ea; inversion Eb; inversion Ec; subst.
    reflexivity.
  - unfold redirectToGoogle. destruct (client env) as [cl|]; [|now left].
    destruct (generateAuthUrl cl _) as [url|]; [right; now exists url | now left].
Qed.

(** X22.  [googleCallback] answers 400 [Missing code] and leaves
    [tokens.json] alone when the query has no code or an empty one, even
    with the environment incomplete; with a code and an incomplete
    environment it answers 500 and leaves the file alone.  Neither case
    depends on the library. *)
Theorem googleCallback_rejects_early (env : Env) (req : Request) (d : Disk) :
  (lookup "code" (query req) = None
   \/ (exists code, lookup "code" (query req) = Some code /\ truthy code = false) ->
   callback env req d = (d, send 400 "Missing code"))
  /\ (forall code,
        lookup "code" (query req) = Some code -> truthy code = true ->
        complete env = false ->
        callback env req d
        = (d, json 500 (errorBody "Failed to exchange code or create spreadsheet"))).
Proof.
  split.
  - intros [H|[code [H Ht]]]; unfold googleCallback, tryCatch; rewrite H.
    + reflexivity.
    + rewrite Ht. reflexivity.
  - intros code H Ht He. unfold googleCallback, tryCatch. rewrite H, Ht. simpl.
    unfold bind, lift. now rewrite (client_incomplete env He).
Qed.

(** The cases in which the handler has answered without touching the
    file. *)
Ltac early_exit :=
  split;
  [ now left
  | split;
    [ intros status body H Hst; simpl in H; try discriminate;
      inversion H; subst; discriminate
    | intros; congruence ] ].

(** X23.  [googleCallback] writes [tokens.json] only with the tokens the
    library returned for the code of the request, and a 200 answer means
    they were written.  They are also written, and stay, when creating the
    spreadsheet then fails and the answer is 500. *)
Theorem googleCallback_stores_tokens (env : Env) (req : Request) (d : Disk) :
  let stored t := {| tokensFile := Some (stringify t); writable := true |} in
  (fst (callback env req d) = d
   \/ exists cl code t,
        client env = ok cl /\ lookup "code" (query req) = Some code
        /\ getToken cl code = ok t /\ writable d = true
        /\ fst (callback env req d) = stored t)
  /\ (forall status body,
        snd (callback env req d) = json status body -> status = 200%N ->
        exists cl code t,
          client env = ok cl /\ lookup "code" (query req) = Some code
          /\ getToken cl code = ok t /\ fst (callback env req d) = stored t)
  /\ (forall cl code t,
        client env = ok cl -> lookup "code" (query req) = Some code ->
        truthy code = true -> getToken cl code = ok t -> writable d = true ->
        createSpreadsheet (setCredentials cl t)
          (orDefault (lookup "title" (query req)) "New Spreadsheet from App")
        = thrown ->
        callback env req d
        = (stored t,
           json 500 (errorBody "Failed to exchange code or create spreadsheet"))).
Proof.
  intro stored. unfold googleCallback, tryCatch.
  destruct (lookup "code" (query req)) as [code|] eqn:Hc;
    [|simpl; early_exit].
  destruct (truthy code) eqn:Ht; simpl; [|early_exit].
  unfold bind, lift, writeFileSync, ret.
  destruct (client env) as [cl|] eqn:Hcl; simpl; [|early_exit].
  destruct (getToken cl code) as [t|] eqn:Hg; simpl; [|early_exit].
  destruct (writable d) eqn:Hw; simpl; [|early_exit].
  destruct (createSpreadsheet (setCredentials cl t) _) as [sid|] eqn:Hs; simpl.
  - split; [right; exists cl, code, t; repeat split; assumption|].
    split.
    + intros status body _ _. exists cl, code, t. repeat split; assumption.
    + intros cl' code' t' E1 E2 _ E3 _ E4.
      inversion E1; inversion E2; subst. rewrite Hg in E3. inversion E3; subst.
      rewrite Hs in E4. discriminate.
  - split; [right; exists cl, code, t; repeat split; assumption|].
    split.
    + intros status body H Hst. inversion H; subst. discriminate.
    + intros cl' code' t' E1 E2 _ E3 _ _.
      inversion E1; inversion E2; subst. rewrite Hg in E3. inversion E3; subst.
      reflexivity.
Qed.

(** The cases in which no spreadsheet was created. *)
Ltac no_sheet :=
  split;
  [ reflexivity
  | split;
    [ let H0 := fresh in intro H0; try discriminate H0; reflexivity
    | let H := fresh in intros ? H; simpl in H; discriminate H ] ].

(** X24.  [createSpreadsheetFromStoredTokens] never writes [tokens.json].
    Without the file it answers 400, whatever the environment, the body
    and the library; a 200 answer carries the id the library returned and
    the URL [https://docs.google.com/spreadsheets/d/] followed by that id,
    and is given only when the file parsed, the environment was complete
    and the library, called with the stored tokens and the title of the
    body (or the default title), returned that id. *)
Theorem createFromStored_reads_only (env : Env) (req : Request) (d : Disk) :
  fst (createFromStored env req d) = d
  /\ (tokensFile d = None ->
      snd (createFromStored env req d)
      = json 400 (errorBody "No stored tokens. Authorize first via /auth/google"))
  /\ (forall body, snd (createFromStored env req d) = json 200 body ->
        exists content t a b c rb sid,
          tokensFile d = Some content /\ parse content = ok t
          /\ client env = ok (OAuth2 a b c)
          /\ Google.body req = Some rb
          /\ createSpreadsheet (setCredentials (OAuth2 a b c) t)
               (orDefault (lookup "title" rb) "New Spreadsheet from Stored Tokens")
             = ok sid
          /\ body = JObject
                      [ ("message", JString "Spreadsheet created");
                        ("spreadsheetId", JString sid);
                        ("spreadsheetUrl",
                         JString ("https://docs.google.com/spreadsheets/d/" ++ sid)) ]).
Proof.
  unfold createSpreadsheetFromStoredTokens, tryCatch, existsSync.
  destruct (tokensFile d) as [content|] eqn:Hf; simpl; [|no_sheet].
  unfold bind, lift, readFileSync, ret. rewrite Hf.
  destruct (parse content) as [t|] eqn:Hp; simpl; [|no_sheet].
  destruct (complete env) eqn:He;
    [|rewrite (client_incomplete env He); simpl; no_sheet].
  destruct (client_complete env He) as [a [b [c [_ [_ [_ Hcl]]]]]].
  rewrite Hcl. simpl.
  destruct (Google.body req) as [rb|] eqn:Hb; simpl; [|no_sheet].
  destruct (createSpreadsheet _ _) as [sid|] eqn:Hs; simpl; [|no_sheet].
  split; [reflexivity|]. split; [discriminate|].
  intros body H. exists content, t, a, b, c, rb, sid. inversion H.
  repeat split; try assumption; reflexivity.
Qed.

(** X25.  Once [googleCallback] has exchanged the code and written the
    tokens, a later [createSpreadsheetFromStoredTokens] authenticates with
    those same tokens, provided [JSON.parse] gives back what
    [JSON.stringify] wrote, and answers 200 with the id the library
    returns, also when the callback itself ended in a 500 because its own
    spreadsheet could not be created. *)
Theorem stored_tokens_are_reused
  (env : Env) (req req' : Request) (d : Disk)
  (cl : Client) (code : Json) (t : Tokens) (rb : list (string * Json))
  (sid : string) :
  client env = ok cl ->
  lookup "code" (query req) = Some code -> truthy code = true ->
  getToken cl code = ok t ->
  writable d = true ->
  parse (stringify t) = ok t ->
  body req' = Some rb ->
  createSpreadsheet (setCredentials cl t)
    (orDefault (lookup "title" rb) "New Spreadsheet from Stored Tokens")
  = ok sid ->
  createFromStored env req' (fst (callback env req d))
  = (fst (callback env req d), created sid).
Proof.
  intros Hcl Hc Ht Hg Hw Hp Hb Hs.
  assert (Hd : fst (callback env req d)
               = {| tokensFile := Some (stringify t); writable := true |}).
  { unfold googleCallback, tryCatch. rewrite Hc, Ht. simpl.
    unfold bind, lift, writeFileSync, ret. rewrite Hcl, Hg, Hw. simpl.
    match goal with
    | |- context [createSpreadsheet ?c ?x] => destruct (createSpreadsheet c x)
    end; reflexivity. }
  rewrite Hd.
  unfold createSpreadsheetFromStoredTokens, tryCatch, existsSync. simpl.
  unfold bind, lift, readFileSync, ret. simpl.
  rewrite Hp, Hcl, Hb. simpl. rewrite Hs. reflexivity.
Qed.

End Facts.

(** A stand-in for the library, for the examples: clients and tokens are
    texts, the token of a code is ["tok"], and no spreadsheet can be
    created before the credentials are set. *)
Module Stub.
Definition OAuth2 (clientId clientSecret redirectUri : string) : string := "".
Definition generateAuthUrl (c : string) (o : AuthUrlOptions) : Result string :=
  ok "https://accounts.google.com/o/oauth2/v2/auth".
Definition getToken (c : string) (code : Json) : Result string := ok "tok".
Definition setCredentials (c : string) (t : string) : string := t.
Definition createSpreadsheet (c : string) (title : Json) : Result string :=
  if (c =? "")%string then thrown else ok "sheet-1".
Definition noSpreadsheet (c : string) (title : Json) : Result string := thrown.
Definition onlyNamedSheets (c : string) (title : Json) : Result string :=
  match title with
  | JString "Budget" => ok "sheet-1"
  | _ => thrown
  end.
Definition stringify (t : string) : string := t.
Definition parse (content : string) : Result string := ok content.
Definition env : Env := mkEnv (Some "id") (Some "secret") (Some "uri").
Definition emptyDisk : Disk := mkDisk None true.
End Stub.

Lemma redirectToGoogle_needs_env_witness :
  redirectToGoogle Stub.OAuth2 Stub.generateAuthUrl (mkEnv (Some "id") (Some "") (Some "uri"))
  = json 500 (errorBody "Failed to generate auth URL").
Proof.
  apply (proj1 (redirectToGoogle_needs_env string Stub.OAuth2 Stub.generateAuthUrl
                  (mkEnv (Some "id") (Some "") (Some "uri")))).
  reflexivity.
Defined.

Lemma googleCallback_rejects_early_witness :
  googleCallback Stub.OAuth2 Stub.getToken Stub.setCredentials
    Stub.createSpreadsheet Stub.stringify (mkEnv None None None)
    (mkRequest [("code", JString "")] None) Stub.emptyDisk
  = (Stub.emptyDisk, send 400 "Missing code").
Proof.
  apply (proj1 (googleCallback_rejects_early string string Stub.OAuth2
                  Stub.getToken Stub.setCredentials Stub.createSpreadsheet
                  Stub.stringify (mkEnv None None None)
                  (mkRequest [("code", JString "")] None) Stub.emptyDisk)).
  right. exists (JString ""). split; reflexivity.
Defined.

Lemma googleCallback_stores_tokens_witness :
  googleCallback Stub.OAuth2 Stub.getToken Stub.setCredentials
    Stub.noSpreadsheet Stub.stringify Stub.env
    (mkRequest [("code", JString "4/abc")] None) Stub.emptyDisk
  = (mkDisk (Some "tok") true,
     json 500 (errorBody "Failed to exchange code or create spreadsheet")).
Proof.
  apply (proj2 (proj2 (googleCallback_stores_tokens string string Stub.OAuth2
                         Stub.getToken Stub.setCredentials Stub.noSpreadsheet
                         Stub.stringify Stub.env
                         (mkRequest [("code", JString "4/abc")] None)
                         Stub.emptyDisk))
           "" (JString "4/abc") "tok"); reflexivity.
Defined.

Lemma createFromStored_reads_only_witness :
  snd (createSpreadsheetFromStoredTokens Stub.OAuth2 Stub.setCredentials
         Stub.createSpreadsheet Stub.parse Stub.env
         (mkRequest [] (Some [("title", JString "Budget")])) Stub.emptyDisk)
  = json 400 (errorBody "No stored tokens. Authorize first via /auth/google").
Proof.
  apply (proj1 (proj2 (createFromStored_reads_only string string Stub.OAuth2
                         Stub.setCredentials Stub.createSpreadsheet Stub.parse
                         Stub.env
                         (mkRequest [] (Some [("title", JString "Budget")]))
                         Stub.emptyDisk))).
  reflexivity.
Defined.

Lemma stored_tokens_are_reused_witness :
  let callbackResult :=
    googleCallback Stub.OAuth2 Stub.getToken Stub.setCredentials
      Stub.onlyNamedSheets Stub.stringify Stub.env
      (mkRequest [("code", JString "4/abc")] None) Stub.emptyDisk in
  snd callbackResult
  = json 500 (errorBody "Failed to exchange code or create spreadsheet")
  /\ createSpreadsheetFromStoredTokens Stub.OAuth2 Stub.setCredentials
       Stub.onlyNamedSheets Stub.parse Stub.env
       (mkRequest [] (Some [("title", JString "Budget")])) (fst callbackResult)
     = (fst callbackResult, created "sheet-1").
Proof.
  split; [reflexivity|].
  apply (stored_tokens_are_reused string string Stub.OAuth2 Stub.getToken
           Stub.setCredentials Stub.onlyNamedSheets Stub.stringify Stub.parse
           Stub.env (mkRequest [("code", JString "4/abc")] None)
           (mkRequest [] (Some [("title", JString "Budget")])) Stub.emptyDisk
           "" (JString "4/abc") "tok" [("title", JString "Budget")] "sheet-1");
    reflexivity.
Defined.

End GoogleFacts.
